(** * diaspy.models: a shallow embedding of the client-side object model

    The module wraps the resources of a pod (aspects, notifications,
    conversations, comments, posts) as objects whose methods issue HTTP
    requests through an injected connection.  The embedding keeps the shape
    of the Python code:

    - JSON payloads are the values of [json]; a Python dict is a
      [gmap string json];
    - a method is a computation in a state-and-exception monad whose state
      holds the object ([self]) and the log of the requests sent so far;
      what the method mutated before raising stays mutated;
    - the connection is a collaborator: the pod answers a request with a
      response that may depend on everything sent before;
    - the two regular expressions of [Notification] run on a small
      backtracking matcher. *)

From stdpp Require Import gmap strings list fin_maps.
From Stdlib Require Import ZArith Ascii.

Open Scope string_scope.
Open Scope list_scope.
Open Scope Z_scope.

#[local] Set Warnings "-register-all".

(** ** JSON values and the Python operations the module applies to them *)

(** The result of [json.loads].  Numbers are integers: no method of the
    module computes with a fractional number. *)
Inductive json : Type :=
| JNull
| JBool (b : bool)
| JInt (z : Z)
| JStr (s : string)
| JList (l : list json)
| JDict (d : gmap string json).

(** The exceptions that leave a method.  [str.format] is kept symbolic: a
    message or a URL is the template with the values substituted into it. *)
Record fmt : Type := Format { template : string; fmt_args : list json }.

Inductive exn : Type :=
| AspectError (msg : fmt)
| ConversationError (msg : fmt)
| PostError (msg : fmt)
| CSRFProtectionKickedIn
| JSONDecodeError
| KeyError (key : json)
| TypeError
| ValueError
| UnboundLocalError (name : string).

Inductive res (A : Type) : Type :=
| OK (a : A)
| Raise (e : exn).
Arguments OK {A} a.
Arguments Raise {A} e.

#[export] Instance res_ret : MRet res := fun A a => OK a.

#[export] Instance res_bind : MBind res := fun A B k r =>
  match r with
  | OK a => k a
  | Raise e => Raise e
  end.

(** Python truth value of a JSON value ([if x:]). *)
Definition truthy (j : json) : bool :=
  match j with
  | JNull => false
  | JBool b => b
  | JInt z => negb (z =? 0)
  | JStr s => negb (String.eqb s "")
  | JList l => match l with [] => false | _ :: _ => true end
  | JDict d => match map_to_list d with [] => false | _ :: _ => true end
  end.

(** [d[key]] on a dict.  The keys of a decoded JSON object are strings, so
    any other hashable key is missing; a list or a dict is unhashable. *)
Definition dict_getitem (d : gmap string json) (key : json) : res json :=
  match key with
  | JStr k =>
      match d !! k with
      | Some v => OK v
      | None => Raise (KeyError key)
      end
  | JList _ | JDict _ => Raise TypeError
  | _ => Raise (KeyError key)
  end.

(** [j[key]] for a string key: only a dict can be subscripted by a string. *)
Definition getitem (j : json) (key : string) : res json :=
  match j with
  | JDict d => dict_getitem d (JStr key)
  | _ => Raise TypeError
  end.

(** [j[key] = v] for a string key: the new value of [j]. *)
Definition setitem (j : json) (key : string) (v : json) : res json :=
  match j with
  | JDict d => OK (JDict (<[key := v]> d))
  | _ => Raise TypeError
  end.

(** ** The connection *)

Inductive verb : Type := GET | POST | PUT | DELETE.

(** One call of [connection.get/post/put/delete]: the path, and the
    [params], [data] and [headers] keyword arguments where given. *)
Record Request : Type := mkRequest {
  rq_verb : verb;
  rq_url : fmt;
  rq_params : option json;
  rq_data : option json;
  rq_headers : list (string * string)
}.

(** What the methods read of a response: [status_code], and the outcome of
    [json()], [None] when the body does not decode. *)
Record Response : Type := mkResponse {
  status_code : Z;
  body : option json
}.

(** [bool(response)] is [response.ok] in the HTTP library behind the
    connection: false for the 4xx and 5xx statuses. *)
Definition Response_bool (r : Response) : bool :=
  negb ((400 <=? status_code r) && (status_code r <? 600)).

(** [response.json()]. *)
Definition Response_json (r : Response) : res json :=
  match body r with
  | Some j => OK j
  | None => Raise JSONDecodeError
  end.

(** The connection object: the pod answers a request knowing what was sent
    before it; [token] is [repr(connection)], the CSRF token. *)
Record Connection : Type := mkConnection {
  pod : list Request -> Request -> Response;
  token : string
}.

(** ** Methods as state-and-exception computations *)

Record World (T : Type) : Type := mkWorld {
  self : T;
  sent : list Request
}.
Arguments mkWorld {T} self sent.
Arguments self {T} w.
Arguments sent {T} w.

Definition M (T A : Type) : Type := World T -> res A * World T.

Definition raise {T A} (e : exn) : M T A := fun w => (Raise e, w).

#[export] Instance M_ret {T} : MRet (M T) := fun A a w => (OK a, w).

#[export] Instance M_bind {T} : MBind (M T) := fun A B k m w =>
  match m w with
  | (OK a, w') => k a w'
  | (Raise e, w') => (Raise e, w')
  end.

Definition lift {T A} (r : res A) : M T A := fun w => (r, w).

Definition get_self {T} : M T T := fun w => (OK (self w), w).

Definition set_self {T} (t : T) : M T unit :=
  fun w => (OK tt, mkWorld t (sent w)).

(** One round trip: the request is logged and the pod's answer returned. *)
Definition send {T} (c : Connection) (rq : Request) : M T Response :=
  fun w => (OK (pod c (sent w) rq), mkWorld (self w) (sent w ++ [rq])).

(** [try: m  except JSONDecodeError: pass], the value defaulting to [dflt]. *)
Definition except_JSONDecodeError {T A} (m : M T A) (dflt : A) : M T A :=
  fun w =>
    match m w with
    | (Raise JSONDecodeError, w') => (OK dflt, w')
    | r => r
    end.

(** [for c in j] over a decoded JSON value: the items of a list, the keys
    of a dict, the characters of a string; nothing else is iterable. *)
Definition py_iter (j : json) : res (list json) :=
  match j with
  | JList l => OK l
  | JDict d => OK (map (fun kv => JStr (fst kv)) (map_to_list d))
  | JStr s => OK (map (fun c => JStr (String c EmptyString)) (String.list_ascii_of_string s))
  | _ => Raise TypeError
  end.

(** A list comprehension [[f(c) for c in l]] whose body may raise. *)
Fixpoint comprehension {A B} (f : A -> res B) (l : list A) : res (list B) :=
  match l with
  | [] => OK []
  | a :: l' =>
      b ← f a;
      bs ← comprehension f l';
      OK (b :: bs)
  end.

(** [json.dumps] of a boolean. *)
Definition json_dumps_bool (b : bool) : string :=
  if b then "true" else "false".

(** ** Exceptions of the remaining methods

    Beside the exceptions of [exn], an index out of range is an
    [IndexError], and several methods of [Post] raise a plain
    [Exception]. *)

Inductive exn_more : Type :=
| Core (e : exn)
| IndexError
| Exception (msg : fmt).

Inductive resx (A : Type) : Type :=
| OKx (a : A)
| Raisex (e : exn_more).
Arguments OKx {A} a.
Arguments Raisex {A} e.

#[export] Instance resx_ret : MRet resx := fun A a => OKx a.

#[export] Instance resx_bind : MBind resx := fun A B k r =>
  match r with
  | OKx a => k a
  | Raisex e => Raisex e
  end.

Definition res_up {A} (r : res A) : resx A :=
  match r with
  | OK a => OKx a
  | Raise e => Raisex (Core e)
  end.

Definition MX (T A : Type) : Type := World T -> resx A * World T.

#[export] Instance MX_ret {T} : MRet (MX T) := fun A a w => (OKx a, w).

#[export] Instance MX_bind {T} : MBind (MX T) := fun A B k m w =>
  match m w with
  | (OKx a, w') => k a w'
  | (Raisex e, w') => (Raisex e, w')
  end.

Definition raisex {T A} (e : exn_more) : MX T A := fun w => (Raisex e, w).

(** A computation of [M] run among computations of [MX]. *)
Definition up {T A} (m : M T A) : MX T A :=
  fun w => (res_up (fst (m w)), snd (m w)).

(** [l[i]] on a Python sequence: an index below zero counts from the end;
    [None] stands for the IndexError of an index out of range. *)
Definition py_index {A} (l : list A) (i : Z) : option A :=
  let n := Z.of_nat (length l) in
  if (0 <=? i) && (i <? n) then l !! Z.to_nat i
  else if (- n <=? i) && (i <? 0) then l !! Z.to_nat (n + i)
  else None.

(** [j[i]] for an integer index: an item of a list, a character of a
    string; a decoded dict has no integer key. *)
Definition getitem_int (j : json) (i : Z) : resx json :=
  match j with
  | JList l =>
      match py_index l i with
      | Some v => OKx v
      | None => Raisex IndexError
      end
  | JStr s =>
      match py_index (String.list_ascii_of_string s) i with
      | Some c => OKx (JStr (String c EmptyString))
      | None => Raisex IndexError
      end
  | JDict _ => Raisex (Core (KeyError (JInt i)))
  | _ => Raisex (Core TypeError)
  end.

(** ** class Aspect *)

Module Aspect.

Record t : Type := mk {
  _connection : Connection;
  id : json;
  name : json;
  _cached : json
}.

Definition __init__ (c : Connection) (id name : json) : t :=
  mk c id name (JList []).

(** [addUser(user_id)].  [rq_data] holds the dict that the code passes
    through [json.dumps]. *)
Definition addUser (user_id : json) : M t json :=
  a ← get_self;
  let data := JDict (<["aspect_id" := id a]> {["person_id" := user_id]}) in
  let headers := [("content-type", "application/json");
                  ("accept", "application/json")] in
  request ← send (_connection a)
               (mkRequest POST (Format "aspect_memberships" []) None
                          (Some data) headers);
  (if status_code request =? 400 then
     raise (AspectError
              (Format "duplicate record, user already exists in aspect: {0}"
                      [JInt (status_code request)]))
   else if status_code request =? 404 then
     raise (AspectError
              (Format "user not found from this pod: {0}"
                      [JInt (status_code request)]))
   else if negb (status_code request =? 200) then
     raise (AspectError
              (Format "wrong status code: {0}" [JInt (status_code request)]))
   else mret tt) ;;
  response ← except_JSONDecodeError (lift (Response_json request)) JNull;
  match response with
  | JNull => raise CSRFProtectionKickedIn
  | _ => mret response
  end.

Definition set_cached (v : json) : M t unit :=
  a ← get_self;
  set_self (mk (_connection a) (id a) (name a) v).

(** [getUsers(fetch)] *)
Definition getUsers (fetch : bool) : M t json :=
  (if fetch then
     a ← get_self;
     request ← send (_connection a)
                 (mkRequest GET (Format "contacts.json?a_id={}" [id a])
                            None None []);
     j ← lift (Response_json request);
     set_cached j
   else mret tt) ;;
  a ← get_self;
  mret (_cached a).

(** [removeAspect()].  As in [addUser], [tokenFrom('contacts')] is the
    connection's own business: the request logged is the [delete] call. *)
Definition removeAspect : M t unit :=
  a ← get_self;
  request ← send (_connection a)
              (mkRequest DELETE (Format "aspects/{}" [id a]) None None []);
  if negb (status_code request =? 302) then
    raise (AspectError
             (Format "wrong status code: {0}" [JInt (status_code request)]))
  else mret tt.

End Aspect.

(** ** The regular expressions of Notification

    The patterns of the module are sequences of literals, character sets
    taken once ([{1}]) and character sets under a greedy [+].  Texts are
    lists of characters; the sets are ASCII, so matching bytes or code
    points gives the same groups. *)

Inductive piece : Type :=
| Lit (l : list ascii)
| Once (cls : ascii -> bool)
| Plus (cls : ascii -> bool).

(** The text after the literal [l], when the text starts with it. *)
Fixpoint strip_prefix (l s : list ascii) : option (list ascii) :=
  match l, s with
  | [], _ => Some s
  | a :: l', c :: s' => if Ascii.eqb a c then strip_prefix l' s' else None
  | _ :: _, [] => None
  end.

(** [cls+] followed by the continuation [k]: as many characters as
    possible first, giving them back one at a time while [k] fails. *)
Fixpoint plus_greedy {B} (cls : ascii -> bool) (k : list ascii -> option B)
    (s : list ascii) : option (list ascii * B) :=
  match s with
  | [] => None
  | c :: s' =>
      if cls c then
        match plus_greedy cls k s' with
        | Some (chunk, b) => Some (c :: chunk, b)
        | None =>
            match k s' with
            | Some b => Some ([c], b)
            | None => None
            end
        end
      else None
  end.

(** A match anchored at the start of [s]: the text each piece took, and
    what is left after the match. *)
Fixpoint match_here (ps : list piece) (s : list ascii)
    : option (list (list ascii) * list ascii) :=
  match ps with
  | [] => Some ([], s)
  | Lit l :: ps' =>
      match strip_prefix l s with
      | Some s' =>
          match match_here ps' s' with
          | Some (chunks, r) => Some (l :: chunks, r)
          | None => None
          end
      | None => None
      end
  | Once cls :: ps' =>
      match s with
      | c :: s' =>
          if cls c then
            match match_here ps' s' with
            | Some (chunks, r) => Some ([c] :: chunks, r)
            | None => None
            end
          else None
      | [] => None
      end
  | Plus cls :: ps' =>
      match plus_greedy cls (match_here ps') s with
      | Some (chunk, (chunks, r)) => Some (chunk :: chunks, r)
      | None => None
      end
  end.

(** [pattern.search(s)]: the leftmost match, as the pieces' texts. *)
Fixpoint search (ps : list piece) (s : list ascii)
    : option (list (list ascii)) :=
  match match_here ps s with
  | Some (chunks, _) => Some chunks
  | None =>
      match s with
      | [] => None
      | _ :: s' => search ps s'
      end
  end.

(** [pattern.findall(s)] for a pattern with one group, the piece number
    [group]: the group of every match, left to right, the scan resuming
    where the last match ended.  [skip] counts the characters of the last
    match still to step over. *)
Fixpoint findall_from (ps : list piece) (group : nat) (skip : nat)
    (s : list ascii) : list (list ascii) :=
  match s with
  | [] =>
      match skip, match_here ps [] with
      | O, Some (chunks, _) => [nth group chunks []]
      | _, _ => []
      end
  | _ :: s' =>
      match skip with
      | S k => findall_from ps group k s'
      | O =>
          match match_here ps s with
          | Some (chunks, _) =>
              nth group chunks []
                :: findall_from ps group (pred (length (concat chunks))) s'
          | None => findall_from ps group O s'
          end
      end
  end.

Definition findall (ps : list piece) (group : nat) (s : list ascii)
    : list (list ascii) :=
  findall_from ps group O s.

(** [[0-9a-f]] *)
Definition is_hex (c : ascii) : bool :=
  (Ascii.leb "0" c && Ascii.leb c "9") || (Ascii.leb "a" c && Ascii.leb c "f").

(** [[0-9]] *)
Definition is_digit (c : ascii) : bool :=
  Ascii.leb "0" c && Ascii.leb c "9".

(** The set of the two quote characters, double and single. *)
Definition is_quote (c : ascii) : bool :=
  Ascii.eqb c "034" || Ascii.eqb c "'".

Definition chars (s : string) : list ascii := String.list_ascii_of_string s.

(** [int(s)] in base ten, for a text without sign, blank or underscore
    (the pattern hands it hex digits only): a character that is not a
    decimal digit, or no character at all, is a [ValueError]. *)
Fixpoint int_digits (acc : Z) (s : list ascii) : res Z :=
  match s with
  | [] => OK acc
  | c :: s' =>
      if is_digit c
      then int_digits (10 * acc + (Z.of_nat (nat_of_ascii c) - 48)) s'
      else Raise ValueError
  end.

(** The most digits [int] converts from a string, the interpreter's
    default limit ([sys.int_info.default_max_str_digits]); a longer text
    is a [ValueError] whatever it holds. *)
Definition int_max_str_digits : Z := 4300.

Definition py_int (s : list ascii) : res Z :=
  match s with
  | [] => Raise ValueError
  | _ :: _ =>
      if int_max_str_digits <? Z.of_nat (length s) then Raise ValueError
      else int_digits 0 s
  end.

(** ** class Notification *)

Module Notification.

(** [/people/([0-9a-f]+)["']{1} class=["']{1}hovercardable]; the group
    is piece 1. *)
Definition _who_regexp : list piece :=
  [Lit (chars "/people/"); Plus is_hex; Once is_quote;
   Lit (chars " class="); Once is_quote; Lit (chars "hovercardable")].

(** [/posts/[0-9a-f]+] *)
Definition _aboutid_regexp : list piece :=
  [Lit (chars "/posts/"); Plus is_hex].

Record t : Type := mk {
  _connection : Connection;
  type : json;
  _data : json;
  id : json;
  unread : json
}.

(** [Notification(connection, data)] *)
Definition __init__ (c : Connection) (data : json) : res t :=
  ty ← getitem data "type";
  d ← match data with
      | JDict m => dict_getitem m ty
      | _ => Raise TypeError
      end;
  i ← getitem d "id";
  u ← getitem d "unread";
  OK (mk c ty d i u).

(** [self._data['note_html']] as the text handed to a pattern, which
    takes nothing but a string. *)
Definition note_html (n : t) : res (list ascii) :=
  h ← getitem (_data n) "note_html";
  match h with
  | JStr s => OK (chars s)
  | _ => Raise TypeError
  end.

(** [who()] *)
Definition who (n : t) : res (list string) :=
  html ← note_html n;
  OK (map String.string_of_list_ascii (findall _who_regexp 1 html)).

(** [about()]: [group(0)[7:]] is what follows "/posts/" in the match. *)
Definition about (n : t) : res json :=
  html ← note_html n;
  match search _aboutid_regexp html with
  | None =>
      w ← who n;
      OK (JList (map JStr w))
  | Some chunks =>
      i ← py_int (skipn 7 (concat chunks));
      OK (JInt i)
  end.

(** [mark(unread)] *)
Definition mark (unread : bool) : M t unit :=
  n ← get_self;
  let headers := [("x-csrf-token", token (_connection n))] in
  let params := JDict {["set_unread" := JStr (json_dumps_bool unread)]} in
  i ← lift (getitem (_data n) "id");
  send (_connection n)
       (mkRequest PUT (Format "notifications/{0}" [i]) (Some params) None
                  headers) ;;
  d ← lift (setitem (_data n) "unread" (JBool unread));
  set_self (mk (_connection n) (type n) d (id n) (Notification.unread n)).

(** [self[key]] *)
Definition __getitem__ (key : string) (n : t) : res json :=
  getitem (_data n) key.

(** [when()] *)
Definition when (n : t) : res json :=
  getitem (_data n) "created_at".

End Notification.

(** ** class Conversation *)

Module Conversation.

Record t : Type := mk {
  _connection : Connection;
  id : json;
  _data : json
}.

(** [delete()]: the pod answers 404 once the visibility is gone. *)
Definition delete : M t unit :=
  cv ← get_self;
  let data := JDict {["authenticity_token" := JStr (token (_connection cv))]} in
  request ← send (_connection cv)
               (mkRequest DELETE
                          (Format "conversations/{0}/visibility/" [id cv])
                          None (Some data)
                          [("accept", "application/json")]);
  if negb (status_code request =? 404) then
    raise (ConversationError
             (Format "{0}: Conversation could not be deleted."
                     [JInt (status_code request)]))
  else mret tt.

Definition set_data (d : json) : M t unit :=
  cv ← get_self;
  set_self (mk (_connection cv) (id cv) d).

(** [_fetch()] *)
Definition _fetch : M t unit :=
  cv ← get_self;
  request ← send (_connection cv)
              (mkRequest GET (Format "conversations/{}.json" [id cv])
                         None None []);
  if status_code request =? 200 then
    j ← lift (Response_json request);
    d ← lift (getitem j "conversation");
    set_data d
  else
    raise (ConversationError
             (Format "cannot download conversation data: {0}"
                     [JInt (status_code request)])).

(** [Conversation(connection, id, fetch)]: the new object, or the
    exception, and the requests the constructor sent. *)
Definition __init__ (c : Connection) (id : json) (fetch : bool)
    (log : list Request) : res t * list Request :=
  let cv0 := mk c id (JDict ∅) in
  match (if fetch then _fetch else mret tt) (mkWorld cv0 log) with
  | (OK _, w) => (OK (self w), sent w)
  | (Raise e, w) => (Raise e, sent w)
  end.

(** [answer(text)] *)
Definition answer (text : json) : M t json :=
  cv ← get_self;
  let data :=
    JDict (<["message[text]" := text]>
             (<["utf8" := JStr "&#x2713;"]>
                {["authenticity_token" := JStr (token (_connection cv))]})) in
  request ← send (_connection cv)
              (mkRequest POST (Format "conversations/{}/messages" [id cv])
                         None (Some data) [("accept", "application/json")]);
  (if negb (status_code request =? 200) then
     raise (ConversationError
              (Format "{0}: Answer could not be posted."
                      [JInt (status_code request)]))
   else mret tt) ;;
  lift (Response_json request).

(** [get_subject()] *)
Definition get_subject (cv : t) : res json :=
  getitem (_data cv) "subject".

End Conversation.

(** ** class Comment *)

Module Comment.

Record t : Type := mk {
  _data : json;
  id : json;
  guid : json
}.

(** [Comment(data)] reads [data['id']] and [data['guid']]. *)
Definition __init__ (data : json) : res t :=
  i ← getitem data "id";
  g ← getitem data "guid";
  OK (mk data i g).

(** [__str__()]: the value under 'text'. *)
Definition __str__ (cm : t) : res json :=
  getitem (_data cm) "text".

(** [when()] *)
Definition when (cm : t) : res json :=
  getitem (_data cm) "created_at".

(** [author(key)] *)
Definition author (key : string) (cm : t) : res json :=
  a ← getitem (_data cm) "author";
  getitem a key.

End Comment.

(** ** class Comments *)

Module Comments.

(** The backing store [_comments] is [None] or a list of comments. *)
Record t : Type := mk { _comments : option (list Comment.t) }.

Definition __init__ (comments : option (list Comment.t)) : t := mk comments.

(** [if self._comments:] and [if comments:] *)
Definition store_truthy (s : option (list Comment.t)) : bool :=
  match s with
  | Some (_ :: _) => true
  | _ => false
  end.

(** The comments the generator [__iter__] yields. *)
Definition __iter__ (cs : t) : list Comment.t :=
  if store_truthy (_comments cs) then
    match _comments cs with Some l => l | None => [] end
  else [].

(** [__len__]: the function falls off its end, returning Python's [None],
    when the store is falsy. *)
Definition __len__ (cs : t) : option nat :=
  if store_truthy (_comments cs) then
    match _comments cs with Some l => Some (length l) | None => None end
  else None.

(** The builtin [len(cs)]: [__len__] must return an integer. *)
Definition len (cs : t) : res nat :=
  match __len__ cs with
  | Some n => OK n
  | None => Raise TypeError
  end.

Definition __bool__ (cs : t) : bool :=
  if store_truthy (_comments cs) then true else false.

Definition add (comment : Comment.t) (cs : t) : t :=
  if store_truthy (_comments cs) then
    match _comments cs with
    | Some l => mk (Some (l ++ [comment]))
    | None => cs
    end
  else cs.

Definition set (comments : list Comment.t) (cs : t) : t :=
  if store_truthy (Some comments) then mk (Some comments) else cs.

(** [set_json(json_comments)] *)
Definition set_json (json_comments : json) (cs : t) : res t :=
  if truthy json_comments then
    items ← py_iter json_comments;
    l ← comprehension Comment.__init__ items;
    OK (mk (Some l))
  else OK cs.

(** [ids()]: the one accessor that iterates the store without testing it;
    [None] is not iterable. *)
Definition ids (cs : t) : res (list json) :=
  match _comments cs with
  | Some l => OK (map Comment.id l)
  | None => Raise TypeError
  end.

(** [self[index]] for an integer index: Python's [None] when the store is
    falsy. *)
Definition __getitem__ (index : Z) (cs : t) : resx (option Comment.t) :=
  if store_truthy (_comments cs) then
    match _comments cs with
    | Some l =>
        match py_index l index with
        | Some cm => OKx (Some cm)
        | None => Raisex IndexError
        end
    | None => OKx None
    end
  else OKx None.

End Comments.

(** ** class Post *)

Module Post.

Record t : Type := mk {
  _connection : Connection;
  id : json;
  guid : json;
  _data : json;
  comments : Comments.t
}.

Definition set_data (d : json) : M t unit :=
  p ← get_self;
  set_self (mk (_connection p) (id p) (guid p) d (comments p)).

Definition set_comments (cs : Comments.t) : M t unit :=
  p ← get_self;
  set_self (mk (_connection p) (id p) (guid p) (_data p) cs).

(** [self[key]] *)
Definition __getitem__ (key : string) : M t json :=
  p ← get_self;
  lift (getitem (_data p) key).

(** The local [id] of [_fetchdata] after the two assignments
    [if self.id: id = self.id] and [if self.guid: id = self.guid];
    [None] when neither ran and the name is unbound. *)
Definition fetch_key (p : t) : option json :=
  let id0 := if truthy (id p) then Some (id p) else None in
  if truthy (guid p) then Some (guid p) else id0.

Definition _fetchdata : M t json :=
  p ← get_self;
  id_ ← match fetch_key p with
        | Some v => mret v
        | None => raise (UnboundLocalError "id")
        end;
  request ← send (_connection p)
              (mkRequest GET (Format "posts/{0}.json" [id_]) None None []);
  (if negb (status_code request =? 200) then
     raise (PostError
              (Format "{0}: could not fetch data for post: {1}"
                      [JInt (status_code request); id_]))
   else if Response_bool request then
     j ← lift (Response_json request);
     set_data j
   else mret tt) ;;
  __getitem__ "guid".

Definition _fetchcomments : M t unit :=
  p ← get_self;
  id_ ← lift (getitem (_data p) "id");
  interactions ← __getitem__ "interactions";
  count ← lift (getitem interactions "comments_count");
  if truthy count then
    request ← send (_connection p)
                (mkRequest GET (Format "posts/{0}/comments.json" [id_])
                           None None []);
    if negb (status_code request =? 200) then
      raise (PostError
               (Format "{0}: could not fetch comments for post: {1}"
                       [JInt (status_code request); id_]))
    else
      j ← lift (Response_json request);
      items ← lift (py_iter j);
      l ← lift (comprehension Comment.__init__ items);
      p' ← get_self;
      set_comments (Comments.set l (comments p'))
  else mret tt.

(** [Post(connection, id, guid, fetch, comments, post_data)]: the new
    object, or the exception, and the requests the constructor sent. *)
Definition __init__ (c : Connection) (id guid : json)
    (fetch fetch_comments : bool) (post_data : json)
    (log : list Request) : res t * list Request :=
  if negb (truthy guid || truthy id) then (Raise TypeError, log)
  else
    let p0 := mk c id guid
                 (if truthy post_data then post_data else JDict ∅)
                 (Comments.__init__ None) in
    let fetch_if_empty : M t unit :=
      p ← get_self;
      if negb (truthy (_data p)) then _fetchdata ;; mret tt else mret tt in
    let run : M t unit :=
      (if fetch then _fetchdata ;; mret tt else mret tt) ;;
      if fetch_comments then
        fetch_if_empty ;; _fetchcomments
      else
        fetch_if_empty ;;
        interactions ← __getitem__ "interactions";
        cs ← lift (getitem interactions "comments");
        p ← get_self;
        cs' ← lift (Comments.set_json cs (comments p));
        set_comments cs' in
    match run (mkWorld p0 log) with
    | (OK _, w) => (OK (self w), sent w)
    | (Raise e, w) => (Raise e, sent w)
    end.

(** [like()] *)
Definition like : M t json :=
  p ← get_self;
  let data := JDict {["authenticity_token" := JStr (token (_connection p))]} in
  request ← send (_connection p)
              (mkRequest POST (Format "posts/{0}/likes" [id p]) None
                         (Some data) [("accept", "application/json")]);
  (if negb (status_code request =? 201) then
     raise (PostError
              (Format "{0}: Post could not be liked."
                      [JInt (status_code request)]))
   else mret tt) ;;
  likes_json ← lift (Response_json request);
  (if truthy likes_json then
     (* [self._data['interactions']['likes'] = [likes_json]] stores into
        the dict that [_data] holds under 'interactions' *)
     p' ← get_self;
     interactions ← lift (getitem (_data p') "interactions");
     interactions' ← lift (setitem interactions "likes" (JList [likes_json]));
     data' ← lift (setitem (_data p') "interactions" interactions');
     set_data data'
   else mret tt) ;;
  mret likes_json.

(** [fetch(comments)]: returns the post itself. *)
Definition fetch (fetch_comments : bool) : M t t :=
  _fetchdata ;;
  (if fetch_comments then _fetchcomments else mret tt) ;;
  get_self.

(** [data(data)]: [JNull] is the default [None]. *)
Definition data (d : json) : M t json :=
  (match d with
   | JNull => mret tt
   | _ => set_data d
   end) ;;
  p ← get_self;
  mret (_data p).

(** [__str__()] and [author(key)] *)
Definition __str__ (p : t) : res json :=
  getitem (_data p) "text".

Definition author (key : string) (p : t) : res json :=
  a ← getitem (_data p) "author";
  getitem a key.

Definition authenticity (p : t) : json :=
  JDict {["authenticity_token" := JStr (token (_connection p))]}.

(** [delete()] *)
Definition delete : M t unit :=
  p ← get_self;
  request ← send (_connection p)
              (mkRequest DELETE (Format "posts/{0}" [id p]) None
                         (Some (authenticity p))
                         [("accept", "application/json")]);
  if negb (status_code request =? 204) then
    raise (PostError
             (Format "{0}: Post could not be deleted"
                     [JInt (status_code request)]))
  else mret tt.

(** [delete_comment(comment_id)] *)
Definition delete_comment (comment_id : json) : M t unit :=
  p ← get_self;
  request ← send (_connection p)
              (mkRequest DELETE
                         (Format "posts/{0}/comments/{1}" [id p; comment_id])
                         None (Some (authenticity p))
                         [("accept", "application/json")]);
  if negb (status_code request =? 204) then
    raise (PostError
             (Format "{0}: Comment could not be deleted"
                     [JInt (status_code request)]))
  else mret tt.

(** [delete_like()]: the like removed is the first of
    [data['interactions']['likes']]. *)
Definition delete_like : MX t unit :=
  p ← up get_self;
  interactions ← up (lift (getitem (_data p) "interactions"));
  likes ← up (lift (getitem interactions "likes"));
  first ← (fun w => (getitem_int likes 0, w));
  like_id ← up (lift (getitem first "id"));
  request ← up (send (_connection p)
                  (mkRequest DELETE
                             (Format "posts/{0}/likes/{1}" [id p; like_id])
                             None (Some (authenticity p)) []));
  if negb (status_code request =? 204) then
    raisex (Core (PostError
                    (Format "{0}: Like could not be removed."
                            [JInt (status_code request)])))
  else mret tt.

(** [reshare()] *)
Definition reshare : MX t json :=
  p ← up get_self;
  g ← up (lift (getitem (_data p) "guid"));
  let data :=
    JDict (<["root_guid" := g]>
             {["authenticity_token" := JStr (token (_connection p))]}) in
  request ← up (send (_connection p)
                  (mkRequest POST (Format "reshares" []) None (Some data)
                             [("accept", "application/json")]));
  (if negb (status_code request =? 201) then
     raisex (Exception
               (Format "{0}: Post could not be reshared"
                       [JInt (status_code request)]))
   else mret tt) ;;
  up (lift (Response_json request)).

(** [comment(text)] *)
Definition comment (text : json) : MX t Comment.t :=
  p ← up get_self;
  let data :=
    JDict (<["text" := text]>
             {["authenticity_token" := JStr (token (_connection p))]}) in
  request ← up (send (_connection p)
                  (mkRequest POST (Format "posts/{0}/comments" [id p]) None
                             (Some data) [("accept", "application/json")]));
  (if negb (status_code request =? 201) then
     raisex (Exception
               (Format "{0}: Comment could not be posted."
                       [JInt (status_code request)]))
   else mret tt) ;;
  j ← up (lift (Response_json request));
  up (lift (Comment.__init__ j)).

(** [vote_poll(poll_answer_id)] *)
Definition vote_poll (poll_answer_id : json) : MX t json :=
  p ← up get_self;
  poll ← up (lift (getitem (_data p) "poll"));
  poll_id ← up (lift (getitem poll "poll_id"));
  let data :=
    JDict (<["poll_answer_id" := poll_answer_id]>
             (<["poll_id" := poll_id]>
                (<["post_id" := id p]>
                   {["authenticity_token" :=
                       JStr (token (_connection p))]}))) in
  request ← up (send (_connection p)
                  (mkRequest POST
                             (Format "posts/{0}/poll_participations" [id p])
                             None (Some data)
                             [("accept", "application/json")]));
  (if negb (status_code request =? 201) then
     raisex (Exception
               (Format "{0}: Vote on poll failed."
                       [JInt (status_code request)]))
   else mret tt) ;;
  up (lift (Response_json request)).

(** [mute()].  [rq_data] holds the dict that the code passes through
    [json.dumps]. *)
Definition mute : MX t unit :=
  p ← up get_self;
  let headers := [("content-type", "application/json");
                  ("x-csrf-token", token (_connection p))] in
  a ← up (lift (getitem (_data p) "author"));
  person ← up (lift (getitem a "id"));
  let data := JDict {["block" := JDict {["person_id" := person]}]} in
  request ← up (send (_connection p)
                  (mkRequest POST (Format "blocks" []) None (Some data)
                             headers));
  if negb (status_code request =? 204) then
    raisex (Exception
              (Format "{0}: Failed to block person"
                      [JInt (status_code request)]))
  else mret tt.

(** [subscribe()] *)
Definition subscribe : MX t unit :=
  p ← up get_self;
  request ← up (send (_connection p)
                  (mkRequest POST (Format "posts/{}/participation" [id p])
                             None (Some (JDict ∅))
                             [("x-csrf-token", token (_connection p))]));
  if negb (status_code request =? 201) then
    raisex (Exception
              (Format "{0}: Failed to subscribe to post"
                      [JInt (status_code request)]))
  else mret tt.

(** [unsubscribe()] *)
Definition unsubscribe : MX t unit :=
  p ← up get_self;
  request ← up (send (_connection p)
                  (mkRequest POST (Format "posts/{}/participation" [id p])
                             None (Some (JDict {["_method" := JStr "delete"]}))
                             [("x-csrf-token", token (_connection p))]));
  if negb (status_code request =? 200) then
    raisex (Exception
              (Format "{0}: Failed to unsubscribe to post"
                      [JInt (status_code request)]))
  else mret tt.

End Post.

(** ** Running a method, and the pods used in the examples *)

(** The method [m] called on [obj] after the requests of [log]. *)
Definition call {T A} (m : M T A) (obj : T) (log : list Request)
    : res A * World T :=
  m (mkWorld obj log).

(** A pod that answers every request with the same response. *)
Definition constant_pod (status : Z) (b : option json) : Connection :=
  mkConnection (fun _ _ => mkResponse status b) "csrf-token".

(** The payload of a notification whose note is [html], and the object
    the constructor makes of its envelope. *)
Definition liked_payload (html : string) : gmap string json :=
  <["id" := JInt 7]> (<["unread" := JBool true]> {["note_html" := JStr html]}).

Definition liked_notification (c : Connection) (html : string)
    : Notification.t :=
  Notification.mk c (JStr "liked") (JDict (liked_payload html))
                  (JInt 7) (JBool true).

(** A comment item as the pod sends it. *)
Definition comment_item (i : Z) (g text : string) : json :=
  JDict (<["id" := JInt i]> (<["guid" := JStr g]> {["text" := JStr text]})).

(** A post payload with a comment count and a list of likes. *)
Definition post_payload (i : Z) (g : string) (count : Z) (likes : list json)
    : gmap string json :=
  <["id" := JInt i]>
    (<["guid" := JStr g]>
       {["interactions" :=
           JDict (<["comments_count" := JInt count]>
                    {["likes" := JList likes]})]}).

(** A pod that holds the post 5, of guid abc, and its two comments. *)
Definition example_pod : Connection :=
  mkConnection
    (fun _ rq =>
       if String.eqb (template (rq_url rq)) "posts/{0}.json"
       then mkResponse 200 (Some (JDict (post_payload 5 "abc" 2 [])))
       else mkResponse 200
              (Some (JList [comment_item 1 "a1" "first";
                            comment_item 2 "b2" "second"])))
    "csrf-token".

(** ** The vocabulary of the statements *)

Definition addUser_request (a : Aspect.t) (user_id : json) : Request :=
  mkRequest POST (Format "aspect_memberships" []) None
    (Some (JDict (<["aspect_id" := Aspect.id a]> {["person_id" := user_id]})))
    [("content-type", "application/json"); ("accept", "application/json")].

Definition delete_request (cv : Conversation.t) : Request :=
  mkRequest DELETE
    (Format "conversations/{0}/visibility/" [Conversation.id cv]) None
    (Some (JDict {["authenticity_token" :=
                     JStr (token (Conversation._connection cv))]}))
    [("accept", "application/json")].

(** A comment item the constructor [Comment] accepts: a dict that holds
    an id and a guid. *)
Definition comment_shaped (c : json) : Prop :=
  exists d i g, c = JDict d /\ d !! "id" = Some i /\ d !! "guid" = Some g.

Definition fetchdata_request (key : json) : Request :=
  mkRequest GET (Format "posts/{0}.json" [key]) None None [].

Definition comments_request (i : json) : Request :=
  mkRequest GET (Format "posts/{0}/comments.json" [i]) None None [].

(** The comment count the payload [data] reports, when it reports one. *)
Definition comments_count (data : json) : res json :=
  interactions ← getitem data "interactions";
  getitem interactions "comments_count".

Definition like_request (p : Post.t) : Request :=
  mkRequest POST (Format "posts/{0}/likes" [Post.id p]) None
    (Some (JDict {["authenticity_token" :=
                     JStr (token (Post._connection p))]}))
    [("accept", "application/json")].

Definition mark_request (n : Notification.t) (i : json) (unread : bool)
    : Request :=
  mkRequest PUT (Format "notifications/{0}" [i])
    (Some (JDict {["set_unread" := JStr (json_dumps_bool unread)]})) None
    [("x-csrf-token", token (Notification._connection n))].

(** What a piece can have taken. *)
Definition piece_ok (p : piece) (chunk : list ascii) : Prop :=
  match p with
  | Lit l => chunk = l
  | Once cls => exists c, chunk = [c] /\ cls c = true
  | Plus cls => chunk <> [] /\ forallb cls chunk = true
  end.

(** One match of [_who_regexp] whose group is [g], between the quote
    characters [q1] and [q2]. *)
Definition who_occurrence (g : list ascii) (q1 q2 : ascii) : list ascii :=
  chars "/people/" ++ g ++ [q1] ++ chars " class=" ++ [q2]
    ++ chars "hovercardable".

Definition valid_occurrence (g : list ascii) (q1 q2 : ascii) : Prop :=
  g <> [] /\ forallb is_hex g = true /\
  is_quote q1 = true /\ is_quote q2 = true.

(** The requests of the remaining methods. *)

Definition conversation_request (cv_id : json) : Request :=
  mkRequest GET (Format "conversations/{}.json" [cv_id]) None None [].

Definition answer_request (cv : Conversation.t) (text : json) : Request :=
  mkRequest POST (Format "conversations/{}/messages" [Conversation.id cv]) None
    (Some (JDict (<["message[text]" := text]>
                    (<["utf8" := JStr "&#x2713;"]>
                       {["authenticity_token" :=
                           JStr (token (Conversation._connection cv))]}))))
    [("accept", "application/json")].

Definition contacts_request (a : Aspect.t) : Request :=
  mkRequest GET (Format "contacts.json?a_id={}" [Aspect.id a]) None None [].

Definition removeAspect_request (a : Aspect.t) : Request :=
  mkRequest DELETE (Format "aspects/{}" [Aspect.id a]) None None [].

(** A pod that answers the [n]-th request it receives (counting from 0)
    with the [n]-th response of [answers], and with [dflt] after that. *)
Definition scripted_pod (answers : list Response) (dflt : Response)
    : Connection :=
  mkConnection (fun log _ => nth (length log) answers dflt) "csrf-token".

Definition delete_post_request (p : Post.t) : Request :=
  mkRequest DELETE (Format "posts/{0}" [Post.id p]) None
    (Some (Post.authenticity p)) [("accept", "application/json")].

Definition delete_comment_request (p : Post.t) (comment_id : json) : Request :=
  mkRequest DELETE (Format "posts/{0}/comments/{1}" [Post.id p; comment_id])
    None (Some (Post.authenticity p)) [("accept", "application/json")].

Definition delete_like_request (p : Post.t) (like_id : json) : Request :=
  mkRequest DELETE (Format "posts/{0}/likes/{1}" [Post.id p; like_id])
    None (Some (Post.authenticity p)) [].

Definition comment_post_request (p : Post.t) (text : json) : Request :=
  mkRequest POST (Format "posts/{0}/comments" [Post.id p]) None
    (Some (JDict (<["text" := text]>
                    {["authenticity_token" :=
                        JStr (token (Post._connection p))]})))
    [("accept", "application/json")].

Definition vote_request (p : Post.t) (poll_id poll_answer_id : json)
    : Request :=
  mkRequest POST (Format "posts/{0}/poll_participations" [Post.id p]) None
    (Some (JDict (<["poll_answer_id" := poll_answer_id]>
                    (<["poll_id" := poll_id]>
                       (<["post_id" := Post.id p]>
                          {["authenticity_token" :=
                              JStr (token (Post._connection p))]})))))
    [("accept", "application/json")].

Definition reshare_request (p : Post.t) (root_guid : json) : Request :=
  mkRequest POST (Format "reshares" []) None
    (Some (JDict (<["root_guid" := root_guid]>
                    {["authenticity_token" :=
                        JStr (token (Post._connection p))]})))
    [("accept", "application/json")].

Definition mute_request (p : Post.t) (person : json) : Request :=
  mkRequest POST (Format "blocks" []) None
    (Some (JDict {["block" := JDict {["person_id" := person]}]}))
    [("content-type", "application/json");
     ("x-csrf-token", token (Post._connection p))].

Definition participation_request (p : Post.t) (data : json) : Request :=
  mkRequest POST (Format "posts/{}/participation" [Post.id p]) None
    (Some data) [("x-csrf-token", token (Post._connection p))].

(** The call of a method of [MX]. *)
Definition callx {T A} (m : MX T A) (obj : T) (log : list Request)
    : resx A * World T :=
  m (mkWorld obj log).

(** ** Tactics *)

Ltac unfold_monad :=
  cbv [call mbind M_bind mret M_ret res_bind res_ret lift raise get_self
       set_self send except_JSONDecodeError].

Ltac case_status :=
  repeat match goal with
  | |- context [Z.eqb ?a ?b] => destruct (Z.eqb_spec a b); simpl
  end.

Ltac unfold_monadx :=
  cbv [call mbind MX_bind MX_ret M_bind mret M_ret res_bind res_ret
       resx_bind resx_ret lift raise raisex up res_up get_self set_self send
       except_JSONDecodeError].

(** ** Aspect.addUser *)

(** C3: the outcome of [addUser] for every status of the membership POST:
    400 raises the duplicate-membership AspectError, 404 the
    user-not-found AspectError, any other status but 200 the generic
    AspectError; 200 returns the decoded body when there is one and it is
    not None, and raises CSRFProtectionKickedIn when the body does not
    decode or decodes to None.  One POST is sent in every case. *)
Theorem Aspect_addUser_by_status (a : Aspect.t) (user_id : json)
    (log : list Request) :
  let r := pod (Aspect._connection a) log (addUser_request a user_id) in
  let out := call (Aspect.addUser user_id) a log in
  sent (snd out) = log ++ [addUser_request a user_id] /\
  (status_code r = 400 ->
   fst out = Raise (AspectError
     (Format "duplicate record, user already exists in aspect: {0}"
             [JInt 400]))) /\
  (status_code r = 404 ->
   fst out = Raise (AspectError
     (Format "user not found from this pod: {0}" [JInt 404]))) /\
  (status_code r <> 400 -> status_code r <> 404 -> status_code r <> 200 ->
   fst out = Raise (AspectError
     (Format "wrong status code: {0}" [JInt (status_code r)]))) /\
  (status_code r = 200 ->
   forall j, body r = Some j -> j <> JNull -> fst out = OK j) /\
  (status_code r = 200 ->
   body r = None \/ body r = Some JNull ->
   fst out = Raise CSRFProtectionKickedIn).
Proof.
  intros r out. subst out. unfold Aspect.addUser. unfold_monad. simpl.
  fold (addUser_request a user_id). fold r.
  split; [|repeat split].
  - case_status; try reflexivity.
    unfold Response_json. destruct (body r) as [[]|]; reflexivity.
  - intros H. rewrite H. reflexivity.
  - intros H. rewrite H. reflexivity.
  - intros H1 H2 H3. case_status; congruence.
  - intros H j Hb Hj. rewrite H. simpl. unfold Response_json. rewrite Hb.
    destruct j; try reflexivity; congruence.
  - intros H Hb. rewrite H. simpl. unfold Response_json.
    destruct Hb as [-> | ->]; reflexivity.
Qed.

Lemma Aspect_addUser_by_status_witness :
  let a := Aspect.__init__ (constant_pod 200 (Some (JDict ∅))) (JInt 3) JNull in
  fst (call (Aspect.addUser (JInt 9)) a []) = OK (JDict ∅).
Proof.
  intros a.
  destruct (Aspect_addUser_by_status a (JInt 9) []) as (_ & _ & _ & _ & H & _).
  apply H; [reflexivity | reflexivity | discriminate].
Defined.

(** ** Conversation.delete *)

(** C4: [Conversation.delete()] sends the visibility DELETE and returns
    normally exactly when the pod answers 404; every other status, 200 and
    500 among them, raises ConversationError. *)
Theorem Conversation_delete_404_only (cv : Conversation.t)
    (log : list Request) :
  let r := pod (Conversation._connection cv) log (delete_request cv) in
  let out := call Conversation.delete cv log in
  sent (snd out) = log ++ [delete_request cv] /\
  (fst out = OK tt <-> status_code r = 404) /\
  (status_code r <> 404 ->
   fst out = Raise (ConversationError
     (Format "{0}: Conversation could not be deleted."
             [JInt (status_code r)]))).
Proof.
  intros r out. subst out. unfold Conversation.delete. unfold_monad. simpl.
  fold (delete_request cv). fold r.
  destruct (Z.eqb_spec (status_code r) 404) as [E | E]; simpl.
  - repeat split; intros; congruence.
  - repeat split; intros; congruence.
Qed.

Lemma Conversation_delete_404_only_witness :
  let failure s :=
    Raise (ConversationError
             (Format "{0}: Conversation could not be deleted." [JInt s])) in
  let cv s := Conversation.mk (constant_pod s None) (JInt 4) (JDict ∅) in
  fst (call Conversation.delete (cv 200) []) = failure 200 /\
  fst (call Conversation.delete (cv 500) []) = failure 500 /\
  fst (call Conversation.delete (cv 404) []) = OK tt.
Proof.
  intros failure cv. split; [| split].
  - apply (Conversation_delete_404_only (cv 200) []). discriminate.
  - apply (Conversation_delete_404_only (cv 500) []). discriminate.
  - apply (Conversation_delete_404_only (cv 404) []). reflexivity.
Defined.

(** ** Comments *)

(** C10: a container whose store is None or the empty list: [__len__]
    returns None, not 0, so [len()] of it is a TypeError; its truth value
    is False and iterating it yields nothing. *)
Theorem Comments_empty_len_is_None (cs : Comments.t) :
  Comments._comments cs = None \/ Comments._comments cs = Some [] ->
  Comments.__len__ cs = None /\
  Comments.len cs = Raise TypeError /\
  Comments.__bool__ cs = false /\
  Comments.__iter__ cs = [].
Proof.
  unfold Comments.len, Comments.__len__, Comments.__bool__, Comments.__iter__.
  intros [H | H]; rewrite H; simpl; auto.
Qed.

Lemma Comments_empty_len_is_None_witness :
  Comments.__len__ (Comments.__init__ (Some [])) = None /\
  Comments.len (Comments.__init__ (Some [])) = Raise TypeError /\
  Comments.__bool__ (Comments.__init__ (Some [])) = false /\
  Comments.__iter__ (Comments.__init__ (Some [])) = [].
Proof.
  apply (Comments_empty_len_is_None (Comments.__init__ (Some []))).
  right. reflexivity.
Defined.

Lemma Comment_init_shaped (c : json) :
  comment_shaped c ->
  exists cm, Comment.__init__ c = OK cm /\ Comment._data cm = c.
Proof.
  intros (d & i & g & -> & Hi & Hg).
  unfold Comment.__init__. cbv [mbind res_bind getitem dict_getitem].
  rewrite Hi, Hg. eexists. split; reflexivity.
Qed.

Lemma comprehension_shaped (items : list json) :
  Forall comment_shaped items ->
  exists l, comprehension Comment.__init__ items = OK l /\
            map Comment._data l = items.
Proof.
  induction 1 as [| c items Hc _ (l & Hl & Hd)]; simpl.
  - exists []. split; reflexivity.
  - destruct (Comment_init_shaped c Hc) as (cm & Hcm & Hdata).
    rewrite Hcm. cbv [mbind res_bind]. rewrite Hl.
    exists (cm :: l). simpl. rewrite Hdata, Hd. split; reflexivity.
Qed.

Lemma comprehension_length {A B} (f : A -> res B) (l : list A) (l' : list B) :
  comprehension f l = OK l' -> length l' = length l.
Proof.
  revert l'. induction l as [| a l IH]; simpl; intros l'.
  - intros [= <-]. reflexivity.
  - cbv [mbind res_bind]. destruct (f a); [| discriminate].
    destruct (comprehension f l) as [bs |]; [| discriminate].
    intros [= <-]. simpl. rewrite (IH bs); reflexivity.
Qed.

(** C7, as the code has it: [set_json] of a non-empty list of N comment
    items gives a container of length N that yields, in the order of the
    list, the Comment made of each item; [set_json] of the empty list
    leaves the container as it was. *)
Theorem Comments_set_json_items (items : list json) (cs : Comments.t) :
  (items = [] -> Comments.set_json (JList items) cs = OK cs) /\
  (items <> [] -> Forall comment_shaped items ->
   exists cs',
     Comments.set_json (JList items) cs = OK cs' /\
     Comments.__len__ cs' = Some (length items) /\
     Comments.len cs' = OK (length items) /\
     comprehension Comment.__init__ items = OK (Comments.__iter__ cs') /\
     map Comment._data (Comments.__iter__ cs') = items).
Proof.
  split.
  - intros ->. reflexivity.
  - intros Hne Hall.
    destruct (comprehension_shaped items Hall) as (l & Hl & Hd).
    pose proof (comprehension_length _ _ _ Hl) as Hlen.
    exists (Comments.mk (Some l)).
    unfold Comments.set_json, Comments.len, Comments.__len__, Comments.__iter__.
    destruct items as [| c items]; [congruence |].
    destruct l as [| cm l]; [discriminate |].
    simpl truthy. cbv [py_iter mbind res_bind]. rewrite Hl. simpl.
    simpl in Hlen. rewrite Hlen. auto.
Qed.

Lemma Comments_set_json_items_witness :
  let items := [comment_item 1 "a1" "first"; comment_item 2 "b2" "second"] in
  exists cs',
    Comments.set_json (JList items) (Comments.__init__ None) = OK cs' /\
    Comments.__len__ cs' = Some 2%nat /\
    Comments.len cs' = OK 2%nat /\
    comprehension Comment.__init__ items = OK (Comments.__iter__ cs') /\
    map Comment._data (Comments.__iter__ cs') = items.
Proof.
  intros items.
  apply (Comments_set_json_items items (Comments.__init__ None)).
  - discriminate.
  - repeat constructor; eexists _, _, _; (split; [reflexivity |]);
      split; reflexivity.
Defined.

(** C7 as stated fails for N = 0: after [set_json] of the empty list a
    fresh container is unchanged, and its length is not 0 but None. *)
Lemma Comments_set_json_empty_has_no_length :
  Comments.set_json (JList []) (Comments.__init__ None)
    = OK (Comments.__init__ None) /\
  Comments.__len__ (Comments.__init__ None) <> Some (length (@nil json)) /\
  Comments.len (Comments.__init__ None) = Raise TypeError.
Proof.
  repeat split. discriminate.
Qed.

(** ** Post._fetchdata *)

(** C1, as the code has it: [_fetchdata()] sends one GET for
    posts/{key}.json where the key is the guid whenever a guid is set, and
    the id only when no guid is set; a status other than 200 raises
    PostError and leaves the post as it was; on 200 with a body that
    decodes, the post's data becomes the decoded body (and nothing else of
    the post changes), the call then returning [data['guid']]. *)
Theorem Post_fetchdata_guid_else_id (p : Post.t) (log : list Request) :
  truthy (Post.id p) = true \/ truthy (Post.guid p) = true ->
  let key := if truthy (Post.guid p) then Post.guid p else Post.id p in
  let r := pod (Post._connection p) log (fetchdata_request key) in
  let out := call Post._fetchdata p log in
  sent (snd out) = log ++ [fetchdata_request key] /\
  (status_code r <> 200 ->
   fst out = Raise (PostError
     (Format "{0}: could not fetch data for post: {1}"
             [JInt (status_code r); key])) /\
   self (snd out) = p) /\
  (status_code r = 200 ->
   forall j, body r = Some j ->
   self (snd out)
     = Post.mk (Post._connection p) (Post.id p) (Post.guid p) j
               (Post.comments p) /\
   fst out = getitem j "guid").
Proof.
  intros Hkey key r out. subst out.
  assert (Hk : Post.fetch_key p = Some key).
  { unfold Post.fetch_key, key. destruct (truthy (Post.guid p)); [reflexivity |].
    destruct Hkey as [-> | ?]; [reflexivity | discriminate]. }
  unfold Post._fetchdata, Post.__getitem__, Post.set_data. unfold_monad.
  simpl. rewrite Hk. simpl. fold (fetchdata_request key). fold r.
  destruct (Z.eqb_spec (status_code r) 200) as [E | E]; simpl.
  - unfold Response_bool, Response_json. rewrite E. simpl.
    split; [| split].
    + destruct (body r); reflexivity.
    + congruence.
    + intros _ j ->. simpl. destruct p; split; reflexivity.
  - split; [reflexivity | split].
    + intros _. destruct p; split; reflexivity.
    + congruence.
Qed.

Lemma Post_fetchdata_guid_else_id_witness :
  let payload := JDict (post_payload 5 "abc" 0 []) in
  let p := Post.mk (constant_pod 200 (Some payload)) (JInt 5) (JStr "")
                   (JDict ∅) (Comments.__init__ None) in
  sent (snd (call Post._fetchdata p [])) = [fetchdata_request (JInt 5)] /\
  Post._data (self (snd (call Post._fetchdata p []))) = payload.
Proof.
  intros payload p.
  destruct (Post_fetchdata_guid_else_id p []) as (Hsent & _ & H200).
  - left. reflexivity.
  - split; [exact Hsent |].
    destruct (H200 eq_refl payload eq_refl) as [-> _]. reflexivity.
Defined.

(** C1 as stated fails when both the id and the guid are set: the GET is
    built from the guid, not from the id. *)
Lemma Post_fetchdata_prefers_guid :
  let p := Post.mk (constant_pod 200 (Some (JDict (post_payload 5 "abc" 0 []))))
                   (JInt 5) (JStr "abc") (JDict ∅) (Comments.__init__ None) in
  truthy (Post.id p) = true /\
  sent (snd (call Post._fetchdata p [])) = [fetchdata_request (JStr "abc")] /\
  sent (snd (call Post._fetchdata p [])) <> [fetchdata_request (JInt 5)].
Proof.
  intros p. split; [reflexivity | split; [reflexivity | discriminate]].
Qed.

(** ** Post._fetchcomments *)

Lemma fetchcomments_sent (p : Post.t) (log : list Request) (i : json) :
  getitem (Post._data p) "id" = OK i ->
  sent (snd (call Post._fetchcomments p log))
    = match comments_count (Post._data p) with
      | OK c => if truthy c then log ++ [comments_request i] else log
      | Raise _ => log
      end.
Proof.
  intros Hi. unfold Post._fetchcomments, Post.__getitem__, Post.set_comments,
    comments_count.
  unfold_monad. simpl. rewrite Hi. simpl.
  destruct (getitem (Post._data p) "interactions") as [inter |]; simpl;
    [| reflexivity].
  destruct (getitem inter "comments_count") as [c |]; simpl; [| reflexivity].
  destruct (truthy c); simpl; [| reflexivity].
  fold (comments_request i).
  destruct (status_code _ =? 200); simpl; [| reflexivity].
  destruct (Response_json _) as [j |]; simpl; [| reflexivity].
  destruct (py_iter j) as [items |]; simpl; [| reflexivity].
  destruct (comprehension Comment.__init__ items); reflexivity.
Qed.

(** C2: on a post whose fetched payload holds the id [i],
    [_fetchcomments()] sends nothing but, at most, the GET for
    posts/{i}/comments.json built from that id (the post's own id and guid
    fields play no part); it sends it if and only if the payload reports a
    comment count that is nonzero, and a payload with
    [interactions.comments_count = 0] sends no request. *)
Theorem Post_fetchcomments_iff_count (p : Post.t) (log : list Request)
    (i : json) :
  getitem (Post._data p) "id" = OK i ->
  let after := sent (snd (call Post._fetchcomments p log)) in
  (after = log \/ after = log ++ [comments_request i]) /\
  (after = log ++ [comments_request i] <->
   exists c, comments_count (Post._data p) = OK c /\ truthy c = true) /\
  (forall n, comments_count (Post._data p) = OK (JInt n) ->
   (after = log ++ [comments_request i] <-> n <> 0)) /\
  (comments_count (Post._data p) = OK (JInt 0) -> after = log).
Proof.
  intros Hi after. subst after. rewrite (fetchcomments_sent p log i Hi).
  assert (Hne : log ++ [comments_request i] <> log).
  { intros E. apply (f_equal (@length _)) in E. rewrite length_app in E.
    simpl in E. lia. }
  split; [| split; [| split]].
  - destruct (comments_count _) as [c |]; [destruct (truthy c) |]; auto.
  - destruct (comments_count _) as [c |]; [destruct (truthy c) eqn:Ec |].
    + split; [eauto | reflexivity].
    + split; [intros E; symmetry in E; contradiction |].
      intros (c' & [= <-] & Hc). congruence.
    + split; [intros E; symmetry in E; contradiction |].
      intros (c' & [=] & _).
  - intros n ->. simpl. destruct (Z.eqb_spec n 0) as [-> | Hn]; simpl.
    + split; [intros E; symmetry in E; contradiction | congruence].
    + split; [auto | reflexivity].
  - intros ->. reflexivity.
Qed.

Lemma Post_fetchcomments_iff_count_witness :
  let p n := Post.mk (constant_pod 200 (Some (JList []))) (JInt 0)
                     (JStr "abc") (JDict (post_payload 5 "abc" n []))
                     (Comments.__init__ None) in
  sent (snd (call Post._fetchcomments (p 0) [])) = [] /\
  sent (snd (call Post._fetchcomments (p 2) [])) = [comments_request (JInt 5)].
Proof.
  intros p. split.
  - apply (Post_fetchcomments_iff_count (p 0) [] (JInt 5)); reflexivity.
  - destruct (Post_fetchcomments_iff_count (p 2) [] (JInt 5) eq_refl)
      as (_ & _ & H & _).
    apply (H 2); [reflexivity | discriminate].
Defined.

(** The constructor refuses a post with neither id nor guid, before any
    request. *)
Lemma Post_init_needs_id_or_guid (c : Connection) (id guid : json)
    (fetch fetch_comments : bool) (post_data : json) (log : list Request) :
  truthy guid = false -> truthy id = false ->
  Post.__init__ c id guid fetch fetch_comments post_data log
    = (Raise TypeError, log).
Proof.
  intros Hg Hi. unfold Post.__init__. rewrite Hg, Hi. reflexivity.
Qed.

(** A post made from its guid alone: the data is fetched by guid, the
    comments by the id found in the data. *)
Example Post_init_guid_only :
  let made := Post.__init__ example_pod (JInt 0) (JStr "abc") true true
                            JNull [] in
  snd made = [fetchdata_request (JStr "abc"); comments_request (JInt 5)] /\
  exists p, fst made = OK p /\ Comments.len (Post.comments p) = OK 2%nat.
Proof.
  split; [reflexivity |]. eexists. split; reflexivity.
Qed.

(** ** Post.like *)

(** C8: [like()] sends the likes POST and raises PostError exactly when
    the status is not 201; on 201 with a decoded body that is not empty,
    on a post whose data holds an interactions dict, it returns the body
    and stores the one-element list of it under
    [data['interactions']['likes']], whatever list was there before, the
    rest of the data staying as it was. *)
Theorem Post_like_replaces_likes (p : Post.t) (log : list Request) :
  let r := pod (Post._connection p) log (like_request p) in
  let out := call Post.like p log in
  sent (snd out) = log ++ [like_request p] /\
  ((exists msg, fst out = Raise (PostError msg)) <-> status_code r <> 201) /\
  (status_code r = 201 ->
   forall j d inter,
     body r = Some j -> truthy j = true ->
     Post._data p = JDict d -> d !! "interactions" = Some (JDict inter) ->
     fst out = OK j /\
     Post._data (self (snd out))
       = JDict (<["interactions" :=
                    JDict (<["likes" := JList [j]]> inter)]> d) /\
     (interactions ← getitem (Post._data (self (snd out))) "interactions";
      getitem interactions "likes") = OK (JList [j])).
Proof.
  intros r out. subst out.
  unfold Post.like, Post.set_data. unfold_monad. simpl.
  fold (like_request p). fold r.
  destruct (Z.eqb_spec (status_code r) 201) as [E | E]; simpl.
  - unfold Response_json.
    split; [| split].
    + destruct (body r) as [j |]; simpl; [| reflexivity].
      destruct (truthy j); simpl; [| reflexivity].
      destruct (getitem (Post._data p) "interactions") as [inter |]; simpl;
        [| reflexivity].
      destruct (setitem inter "likes" _); simpl; [| reflexivity].
      destruct (setitem (Post._data p) "interactions" _); reflexivity.
    + split; [| congruence].
      intros (msg & H). exfalso.
      destruct (body r) as [j |]; simpl in H; [| discriminate].
      destruct (truthy j); simpl in H; [| discriminate].
      unfold getitem, dict_getitem in H.
      destruct (Post._data p) as [| | | | | d]; simpl in H; try discriminate.
      destruct (d !! "interactions") as [inter |]; simpl in H;
        [| discriminate].
      destruct inter; simpl in H; discriminate.
    + intros _ j d inter -> Hj Hd Hinter. rewrite Hj. simpl.
      rewrite Hd. simpl. rewrite Hinter. simpl.
      split; [reflexivity | split; [reflexivity |]].
      cbv [mbind res_bind]. rewrite lookup_insert_eq.
      simpl. rewrite lookup_insert_eq. reflexivity.
  - split; [reflexivity | split].
    + split; [auto | eauto].
    + congruence.
Qed.

Lemma Post_like_replaces_likes_witness :
  let like := JDict {["id" := JInt 31]} in
  let old := JDict {["id" := JInt 30]} in
  let p := Post.mk (constant_pod 201 (Some like)) (JInt 5) (JStr "abc")
                   (JDict (post_payload 5 "abc" 0 [old]))
                   (Comments.__init__ None) in
  fst (call Post.like p []) = OK like /\
  (interactions ← getitem (Post._data (self (snd (call Post.like p []))))
                          "interactions";
   getitem interactions "likes") = OK (JList [like]).
Proof.
  intros like old p.
  destruct (Post_like_replaces_likes p []) as (_ & _ & H).
  destruct (H eq_refl like (post_payload 5 "abc" 0 [old])
              (<["comments_count" := JInt 0]> {["likes" := JList [old]]})
              eq_refl eq_refl eq_refl eq_refl) as (H1 & _ & H3).
  split; [exact H1 | exact H3].
Defined.

(** ** Notification.mark *)

Lemma Notification_init_data (c : Connection) (data : json)
    (n : Notification.t) :
  Notification.__init__ c data = OK n ->
  exists d i, Notification._data n = JDict d /\ d !! "id" = Some i /\
              Notification.id n = i /\ Notification._connection n = c.
Proof.
  unfold Notification.__init__. cbv [mbind res_bind].
  destruct (getitem data "type") as [ty |]; [| discriminate].
  destruct data as [| | | | | m]; try discriminate.
  destruct (dict_getitem m ty) as [d |]; [| discriminate].
  unfold getitem, dict_getitem.
  destruct d as [| | | | | d]; try discriminate.
  destruct (d !! "id") as [i |] eqn:Hi; [| discriminate].
  destruct (d !! "unread") as [u |]; [| discriminate].
  intros [= <-]. simpl. exists d, i. auto.
Qed.

(** [mark(unread)] on any notification whose payload holds an id, for
    either boolean and whatever the pod answers: the PUT is sent, the call
    returns normally and the argument is stored under [data['unread']],
    the response never being looked at; the attribute [unread] is not
    written. *)
Lemma Notification_mark_writes_item (n : Notification.t)
    (d : gmap string json) (i : json) (unread : bool) (log : list Request) :
  Notification._data n = JDict d ->
  d !! "id" = Some i ->
  let out := call (Notification.mark unread) n log in
  fst out = OK tt /\
  sent (snd out) = log ++ [mark_request n i unread] /\
  Notification._data (self (snd out))
    = JDict (<["unread" := JBool unread]> d) /\
  Notification.unread (self (snd out)) = Notification.unread n.
Proof.
  intros Hd Hi out. subst out. unfold Notification.mark. unfold_monad. simpl.
  rewrite Hd. simpl. unfold dict_getitem. rewrite Hi. simpl.
  repeat split.
Qed.

(** C9 fails on the attribute [unread].  Take the notification that the
    constructor makes of a payload whose unread is true, and call
    [mark(False)]: whatever status and body the pod answers, the PUT is
    sent, the call returns normally and [n['unread']] is false, as the
    claim says; but the attribute [unread], which the constructor copied
    from the payload, is never written and is still true. *)
Theorem Notification_mark_attribute_not_flipped (status : Z)
    (b : option json) (log : list Request) :
  let envelope :=
    JDict (<["type" := JStr "liked"]>
             {["liked" := JDict (liked_payload "<p>x</p>")]}) in
  let n := liked_notification (constant_pod status b) "<p>x</p>" in
  let out := call (Notification.mark false) n log in
  Notification.__init__ (constant_pod status b) envelope = OK n /\
  Notification.unread n = JBool true /\
  fst out = OK tt /\
  sent (snd out) = log ++ [mark_request n (JInt 7) false] /\
  Notification.__getitem__ "unread" (self (snd out)) = OK (JBool false) /\
  Notification.unread (self (snd out)) = JBool true /\
  Notification.unread (self (snd out)) <> JBool false.
Proof.
  intros envelope n out. subst out.
  destruct (Notification_mark_writes_item n (liked_payload "<p>x</p>")
              (JInt 7) false log eq_refl eq_refl) as (Hok & Hsent & Hdata & Hattr).
  split; [reflexivity | split; [reflexivity |]].
  split; [exact Hok | split; [exact Hsent |]].
  unfold Notification.__getitem__. rewrite Hdata, Hattr.
  split; [| split; [reflexivity | discriminate]].
  simpl. rewrite lookup_insert_eq. reflexivity.
Qed.

(** The attribute [unread] that the constructor copied from the payload is
    not what [mark] writes: it keeps its value. *)
Lemma Notification_mark_keeps_attribute (n : Notification.t) (unread : bool)
    (log : list Request) :
  Notification.unread (self (snd (call (Notification.mark unread) n log)))
    = Notification.unread n.
Proof.
  unfold Notification.mark. unfold_monad. simpl.
  destruct (getitem (Notification._data n) "id"); simpl; [| reflexivity].
  destruct (setitem (Notification._data n) "unread" _); reflexivity.
Qed.

(** ** The matcher *)

Lemma strip_prefix_app (l s : list ascii) : strip_prefix l (l ++ s) = Some s.
Proof.
  induction l as [| a l IH]; simpl; [reflexivity |].
  rewrite Ascii.eqb_refl. exact IH.
Qed.

Lemma strip_prefix_Some (l s r : list ascii) :
  strip_prefix l s = Some r -> s = l ++ r.
Proof.
  revert s. induction l as [| a l IH]; intros s; simpl.
  - intros [= ->]. reflexivity.
  - destruct s as [| c s]; [discriminate |].
    destruct (Ascii.eqb_spec a c) as [-> |]; [| discriminate].
    intros H. rewrite (IH _ H). reflexivity.
Qed.

Lemma plus_greedy_sound {B} (cls : ascii -> bool)
    (k : list ascii -> option B) (s chunk : list ascii) (b : B) :
  plus_greedy cls k s = Some (chunk, b) ->
  chunk <> [] /\ forallb cls chunk = true /\
  exists r, s = chunk ++ r /\ k r = Some b.
Proof.
  revert chunk. induction s as [| c s IH]; intros chunk; simpl;
    [discriminate |].
  destruct (cls c) eqn:Hc; [| discriminate].
  destruct (plus_greedy cls k s) as [[chunk' b'] |].
  - intros [= <- <-]. destruct (IH chunk' eq_refl) as (_ & Hall & r & -> & Hk).
    split; [discriminate | split].
    + simpl. rewrite Hc. exact Hall.
    + exists r. split; [reflexivity | exact Hk].
  - destruct (k s) as [b' |] eqn:Hk; [| discriminate].
    intros [= <- <-]. split; [discriminate | split].
    + simpl. rewrite Hc. reflexivity.
    + exists s. split; [reflexivity | exact Hk].
Qed.

(** A run of the set that ends where the set ends is taken whole. *)
Lemma plus_greedy_run {B} (cls : ascii -> bool)
    (k : list ascii -> option B) (g r : list ascii) (b : B) :
  g <> [] -> forallb cls g = true ->
  match r with [] => True | c :: _ => cls c = false end ->
  k r = Some b ->
  plus_greedy cls k (g ++ r) = Some (g, b).
Proof.
  intros Hne Hall Hr Hk.
  assert (Hstop : plus_greedy cls k r = None).
  { destruct r as [| c r]; simpl; [reflexivity |]. rewrite Hr. reflexivity. }
  induction g as [| c g IH]; [congruence |].
  simpl in Hall. apply andb_true_iff in Hall as [Hc Hall].
  simpl. rewrite Hc.
  destruct g as [| c' g].
  - simpl app. rewrite Hstop, Hk. reflexivity.
  - rewrite IH; [reflexivity | discriminate | exact Hall].
Qed.

Lemma match_here_sound (ps : list piece) :
  forall s chunks r,
    match_here ps s = Some (chunks, r) ->
    Forall2 piece_ok ps chunks /\ s = concat chunks ++ r.
Proof.
  induction ps as [| p ps IH]; intros s chunks r; simpl.
  - intros [= <- <-]. split; [constructor | reflexivity].
  - destruct p as [l | cls | cls].
    + destruct (strip_prefix l s) as [s' |] eqn:Hl; [| discriminate].
      destruct (match_here ps s') as [[chunks' r'] |] eqn:Hm; [| discriminate].
      intros [= <- <-]. destruct (IH _ _ _ Hm) as [Hall ->].
      apply strip_prefix_Some in Hl. subst s.
      split; [constructor; [reflexivity | exact Hall] |].
      simpl. rewrite <- app_assoc. reflexivity.
    + destruct s as [| c s]; [discriminate |].
      destruct (cls c) eqn:Hc; [| discriminate].
      destruct (match_here ps s) as [[chunks' r'] |] eqn:Hm; [| discriminate].
      intros [= <- <-]. destruct (IH _ _ _ Hm) as [Hall ->].
      split; [constructor; [exists c; auto | exact Hall] | reflexivity].
    + destruct (plus_greedy cls (match_here ps) s) as [[chunk [chunks' r']] |]
        eqn:Hp; [| discriminate].
      intros [= <- <-].
      destruct (plus_greedy_sound _ _ _ _ _ Hp) as (Hne & Hcls & s' & -> & Hm).
      destruct (IH _ _ _ Hm) as [Hall ->].
      split; [constructor; [split; assumption | exact Hall] |].
      simpl. rewrite <- app_assoc. reflexivity.
Qed.

Lemma is_quote_not_hex (c : ascii) : is_quote c = true -> is_hex c = false.
Proof.
  destruct c as [[] [] [] [] [] [] [] []]; vm_compute; congruence.
Qed.

Lemma is_hex_not_slash (c : ascii) : is_hex c = true -> c <> "/"%char.
Proof. intros H ->. discriminate. Qed.

Lemma is_quote_not_slash (c : ascii) : is_quote c = true -> c <> "/"%char.
Proof. intros H ->. discriminate. Qed.

(** Every match of [_who_regexp] is an occurrence, its group in piece 1. *)
Lemma match_here_who_sound (s : list ascii) chunks r :
  match_here Notification._who_regexp s = Some (chunks, r) ->
  exists g q1 q2,
    nth 1 chunks [] = g /\ concat chunks = who_occurrence g q1 q2 /\
    s = who_occurrence g q1 q2 ++ r /\
    g <> [] /\ forallb is_hex g = true /\
    is_quote q1 = true /\ is_quote q2 = true.
Proof.
  intros H. apply match_here_sound in H as [Hall ->].
  unfold Notification._who_regexp in Hall.
  repeat match goal with
  | H : Forall2 _ (_ :: _) _ |- _ => inversion H; subst; clear H
  | H : Forall2 _ [] _ |- _ => inversion H; subst; clear H
  end.
  repeat match goal with
  | H : piece_ok _ _ |- _ => simpl in H
  end.
  repeat match goal with
  | H : exists _, _ |- _ => destruct H as (? & -> & ?)
  | H : _ /\ _ |- _ => destruct H
  end.
  subst. eexists _, _, _.
  repeat split; eassumption.
Qed.

(** An occurrence at the start of the text is matched, with its group. *)
Lemma match_here_who_occurrence (g : list ascii) (q1 q2 : ascii)
    (r : list ascii) :
  g <> [] -> forallb is_hex g = true ->
  is_quote q1 = true -> is_quote q2 = true ->
  match_here Notification._who_regexp (who_occurrence g q1 q2 ++ r)
    = Some ([chars "/people/"; g; [q1]; chars " class="; [q2];
             chars "hovercardable"], r).
Proof.
  intros Hne Hhex Hq1 Hq2.
  unfold Notification._who_regexp, who_occurrence.
  cbn [match_here]. repeat rewrite <- app_assoc.
  rewrite strip_prefix_app.
  rewrite (plus_greedy_run is_hex _ g _
             ([[q1]; chars " class="; [q2]; chars "hovercardable"], r));
    auto.
  - simpl. apply is_quote_not_hex. exact Hq1.
  - cbn [match_here app]. rewrite Hq1. rewrite strip_prefix_app.
    cbn [app]. rewrite Hq2. rewrite strip_prefix_app. reflexivity.
Qed.

(** ** findall with [_who_regexp] *)

(** A character that is absent from [l1] cannot come before the end of
    [l1]. *)
Lemma absent_char_after {A} (c : A) (l1 r p r' : list A) :
  l1 ++ r = p ++ c :: r' -> ~ In c l1 -> (length l1 <= length p)%nat.
Proof.
  revert p. induction l1 as [| a l1 IH]; intros p E Hc; simpl; [lia |].
  destruct p as [| b p]; simpl in E.
  - injection E as -> _. exfalso. apply Hc. left. reflexivity.
  - injection E as _ E. simpl. apply le_n_S. apply (IH p E).
    intros Hin. apply Hc. right. exact Hin.
Qed.

Lemma who_tail_no_slash (g : list ascii) (q1 q2 : ascii) :
  valid_occurrence g q1 q2 ->
  ~ In "/"%char (g ++ [q1] ++ chars " class=" ++ [q2] ++ chars "hovercardable").
Proof.
  intros (_ & Hhex & Hq1 & Hq2) Hin.
  apply in_app_or in Hin as [Hin | Hin].
  - rewrite forallb_forall in Hhex. apply Hhex in Hin. discriminate.
  - simpl in Hin.
    repeat (destruct Hin as [Hin | Hin];
            [first [discriminate Hin | subst; discriminate] |]).
    exact Hin.
Qed.

(** Two occurrences do not overlap: a match cannot run over the start of
    an occurrence that begins after it does. *)
Lemma who_no_overlap (g : list ascii) (q1 q2 : ascii) (r pre : list ascii)
    (g' : list ascii) (q1' q2' : ascii) (post : list ascii) :
  valid_occurrence g q1 q2 ->
  who_occurrence g q1 q2 ++ r = pre ++ who_occurrence g' q1' q2' ++ post ->
  pre <> [] ->
  (length (who_occurrence g q1 q2) <= length pre)%nat.
Proof.
  intros Hv E Hpre.
  pose proof (who_tail_no_slash g q1 q2 Hv) as Hslash.
  destruct Hv as (Hne & Hhex & _ & _).
  unfold who_occurrence in *.
  set (T := g ++ [q1] ++ chars " class=" ++ [q2] ++ chars "hovercardable") in *.
  set (U := g' ++ [q1'] ++ chars " class=" ++ [q2'] ++ chars "hovercardable")
    in *.
  destruct pre as [| c0 pre]; [congruence |].
  change (chars "/people/" ++ T) with ("/"%char :: chars "people" ++ "/"%char :: T) in *.
  change (chars "/people/" ++ U) with ("/"%char :: chars "people/" ++ U) in E.
  simpl in E. injection E as _ E.
  assert (H6 : (6 <= length pre)%nat).
  { apply (absent_char_after "/"%char (chars "people") ("/"%char :: T ++ r)
             pre ((chars "people/" ++ U) ++ post)).
    - exact E.
    - simpl. intuition discriminate. }
  do 6 (destruct pre as [| ? pre]; [simpl in H6; lia |]).
  simpl in E. injection E as _ _ _ _ _ _ E.
  destruct pre as [| c7 pre].
  - simpl in E. injection E as E.
    destruct g as [| h g]; [congruence |].
    unfold T in E. simpl in E. injection E as -> _.
    simpl in Hhex. discriminate.
  - simpl in E. injection E as _ E.
    apply absent_char_after in E; [| exact Hslash].
    simpl. lia.
Qed.

Lemma findall_who_sound (s : list ascii) :
  forall skip g,
    In g (findall_from Notification._who_regexp 1 skip s) ->
    exists pre post q1 q2,
      valid_occurrence g q1 q2 /\ s = pre ++ who_occurrence g q1 q2 ++ post.
Proof.
  induction s as [| c s IH]; intros skip g.
  - destruct skip; simpl; intros [].
  - cbn [findall_from]. destruct skip as [| k].
    + destruct (match_here Notification._who_regexp (c :: s))
        as [[chunks r] |] eqn:Hm.
      * intros [Hg | Hin].
        -- apply match_here_who_sound in Hm
             as (g0 & q1 & q2 & Hnth & _ & Hs & Hv).
           exists [], r, q1, q2. rewrite <- Hg, Hnth.
           split; [exact Hv | exact Hs].
        -- destruct (IH _ _ Hin) as (pre & post & q1 & q2 & Hv & ->).
           exists (c :: pre), post, q1, q2. split; [exact Hv | reflexivity].
      * intros Hin.
        destruct (IH _ _ Hin) as (pre & post & q1 & q2 & Hv & ->).
        exists (c :: pre), post, q1, q2. split; [exact Hv | reflexivity].
    + intros Hin.
      destruct (IH _ _ Hin) as (pre & post & q1 & q2 & Hv & ->).
      exists (c :: pre), post, q1, q2. split; [exact Hv | reflexivity].
Qed.

Lemma findall_who_complete (g : list ascii) (q1 q2 : ascii)
    (post : list ascii) :
  valid_occurrence g q1 q2 ->
  forall pre skip,
    (skip <= length pre)%nat ->
    In g (findall_from Notification._who_regexp 1 skip
            (pre ++ who_occurrence g q1 q2 ++ post)).
Proof.
  intros Hv. induction pre as [| c pre IH]; intros skip Hskip.
  - simpl in Hskip. assert (skip = 0%nat) as -> by lia.
    pose proof Hv as (Hne & Hhex & Hq1 & Hq2).
    pose proof (match_here_who_occurrence g q1 q2 post Hne Hhex Hq1 Hq2) as Hm.
    rewrite app_nil_l.
    destruct (who_occurrence g q1 q2 ++ post) as [| c s] eqn:E;
      [discriminate |].
    cbn [findall_from]. rewrite Hm. apply in_eq.
  - rewrite <- app_comm_cons. cbn [findall_from]. destruct skip as [| k].
    + destruct (match_here Notification._who_regexp
                  (c :: pre ++ who_occurrence g q1 q2 ++ post))
        as [[chunks r] |] eqn:Hm.
      * apply in_cons. apply IH.
        apply match_here_who_sound in Hm
          as (g0 & p1 & p2 & _ & Hcat & Hs & Hv0).
        rewrite Hcat.
        pose proof (who_no_overlap g0 p1 p2 r (c :: pre) g q1 q2 post Hv0)
          as Hov.
        rewrite <- Hs, app_comm_cons in Hov.
        specialize (Hov eq_refl ltac:(discriminate)).
        change (length (c :: pre)) with (S (length pre)) in Hov. lia.
      * apply IH. lia.
    + apply IH. simpl in Hskip. lia.
Qed.

Lemma In_map_string_of_list_ascii (g : string) (l : list (list ascii)) :
  In g (map String.string_of_list_ascii l) <-> In (chars g) l.
Proof.
  rewrite in_map_iff. split.
  - intros (x & <- & Hx). unfold chars.
    rewrite String.list_ascii_of_string_of_list_ascii. exact Hx.
  - intros H. exists (chars g). split; [| exact H].
    apply String.string_of_list_ascii_of_string.
Qed.

(** C5, as the code has it: [who()] returns the hex GUIDs [g] for which
    /people/g, a quote, the attribute class=, a quote and the word
    hovercardable follow one another in note_html, and no other string.  A
    /people/ href without that class is not returned. *)
Theorem Notification_who_hovercardable (n : Notification.t) (html : string) :
  getitem (Notification._data n) "note_html" = OK (JStr html) ->
  exists gs,
    Notification.who n = OK gs /\
    forall g : string,
      In g gs <->
      exists pre post q1 q2,
        valid_occurrence (chars g) q1 q2 /\
        chars html = pre ++ who_occurrence (chars g) q1 q2 ++ post.
Proof.
  intros Hhtml. unfold Notification.who, Notification.note_html.
  rewrite Hhtml. cbv [mbind res_bind].
  eexists. split; [reflexivity |].
  intros g. rewrite In_map_string_of_list_ascii. unfold findall. split.
  - apply findall_who_sound.
  - intros (pre & post & q1 & q2 & Hv & ->).
    apply findall_who_complete; [exact Hv | lia].
Qed.

Lemma Notification_who_hovercardable_witness :
  let html := "<a href='/people/4f2a' class='hovercardable'>Bob</a> liked" in
  exists gs,
    Notification.who (liked_notification (constant_pod 200 None) html) = OK gs
    /\ In "4f2a" gs.
Proof.
  intros html.
  destruct (Notification_who_hovercardable
              (liked_notification (constant_pod 200 None) html) html eq_refl)
    as (gs & Hgs & Hin).
  exists gs. split; [exact Hgs |].
  apply Hin.
  exists (chars "<a href='"), (chars "'>Bob</a> liked"), "'"%char, "'"%char.
  split; [| reflexivity].
  repeat split; try reflexivity. discriminate.
Defined.

(** C5 as stated fails on an anchor without the hovercardable class: its
    href is /people/abc123, and [who()] returns the empty list. *)
Lemma Notification_who_misses_plain_anchor :
  let html := "<a href='/people/abc123'>Bob</a> started sharing" in
  chars html = chars "<a href='" ++ chars "/people/" ++ chars "abc123"
                 ++ chars "'>Bob</a> started sharing" /\
  forallb is_hex (chars "abc123") = true /\
  Notification.who (liked_notification (constant_pod 200 None) html) = OK [].
Proof.
  intros html. split; [reflexivity | split; reflexivity].
Qed.

(** ** Notification.about *)

Lemma int_digits_OK (s : list ascii) :
  forall acc, forallb is_digit s = true -> exists z, int_digits acc s = OK z.
Proof.
  induction s as [| c s IH]; intros acc; simpl.
  - eauto.
  - intros H. apply andb_true_iff in H as [-> H]. apply IH. exact H.
Qed.

Lemma int_digits_ValueError (s : list ascii) :
  forall acc, forallb is_digit s = false -> int_digits acc s = Raise ValueError.
Proof.
  induction s as [| c s IH]; intros acc; simpl; [discriminate |].
  destruct (is_digit c); simpl; [apply IH | reflexivity].
Qed.

(** [int] of the text of a reference: the number when the text is made
    of decimal digits, no more than the limit allows; a ValueError as soon
    as it holds a letter or is longer than the limit. *)
Lemma py_int_decimal_only (g : list ascii) :
  g <> [] ->
  (forallb is_digit g = true ->
   Z.of_nat (length g) <= int_max_str_digits ->
   exists z, py_int g = OK z) /\
  (forallb is_digit g = false -> py_int g = Raise ValueError) /\
  (int_max_str_digits < Z.of_nat (length g) -> py_int g = Raise ValueError).
Proof.
  intros Hne. destruct g as [| c g]; [congruence |]. unfold py_int.
  destruct (Z.ltb_spec int_max_str_digits (Z.of_nat (length (c :: g))))
    as [Hlong | Hshort].
  - split; [intros _ H; lia | split; reflexivity].
  - split; [intros H _; apply int_digits_OK; exact H |].
    split; [apply int_digits_ValueError | intros H; lia].
Qed.

Lemma search_aboutid_Some (s : list ascii) (chunks : list (list ascii)) :
  search Notification._aboutid_regexp s = Some chunks ->
  exists g, chunks = [chars "/posts/"; g] /\ g <> [] /\
            forallb is_hex g = true /\
            exists pre post, s = pre ++ chars "/posts/" ++ g ++ post.
Proof.
  induction s as [| c s IH]; cbn [search].
  - simpl. discriminate.
  - destruct (match_here Notification._aboutid_regexp (c :: s))
      as [[chunks' r] |] eqn:Hm.
    + intros [= <-]. apply match_here_sound in Hm as [Hall Hs].
      unfold Notification._aboutid_regexp in Hall.
      inversion Hall as [| ? c1 ? l1 H1 Hall1]; subst.
      inversion Hall1 as [| ? c2 ? l2 H2 Hall2]; subst.
      inversion Hall2; subst. simpl in H1, H2. subst c1.
      destruct H2 as [Hne Hhex].
      exists c2. repeat split; try assumption.
      exists [], r. rewrite Hs. simpl. rewrite app_nil_r. reflexivity.
    + intros H. destruct (IH H) as (g & -> & Hne & Hhex & pre & post & ->).
      exists g. repeat split; try assumption.
      exists (c :: pre), post. reflexivity.
Qed.

(** [about()] where note_html holds a /posts/ reference: the outcome is
    that of [int] on the hex text of the leftmost one. *)
Lemma Notification_about_reference (n : Notification.t) (html : string)
    (chunks : list (list ascii)) :
  getitem (Notification._data n) "note_html" = OK (JStr html) ->
  search Notification._aboutid_regexp (chars html) = Some chunks ->
  exists g, chunks = [chars "/posts/"; g] /\ g <> [] /\
            forallb is_hex g = true /\
            Notification.about n = (i ← py_int g; OK (JInt i)).
Proof.
  intros Hhtml Hs.
  destruct (search_aboutid_Some _ _ Hs) as (g & -> & Hne & Hhex & _).
  exists g. repeat split; try assumption.
  unfold Notification.about, Notification.note_html.
  rewrite Hhtml. cbv [mbind res_bind]. rewrite Hs.
  simpl. rewrite app_nil_r. reflexivity.
Qed.

(** [about()] where note_html holds no /posts/ reference: the value of
    [who()]. *)
Lemma Notification_about_falls_back_to_who (n : Notification.t)
    (html : string) :
  getitem (Notification._data n) "note_html" = OK (JStr html) ->
  search Notification._aboutid_regexp (chars html) = None ->
  Notification.about n = (w ← Notification.who n; OK (JList (map JStr w))).
Proof.
  intros Hhtml Hs. unfold Notification.about, Notification.note_html.
  rewrite Hhtml. cbv [mbind res_bind]. rewrite Hs. reflexivity.
Qed.

(** C6 fails where the reference is a hex id with a letter in it: the
    pattern accepts /posts/4f2a, and [int] then raises ValueError instead
    of [about()] returning an id.  With decimal digits only the id is
    returned, and without a reference the value is that of [who()]. *)
Theorem Notification_about_hex_reference :
  let c := constant_pod 200 None in
  Notification.about (liked_notification c "<a href='/posts/4f2a'>a post</a>")
    = Raise ValueError /\
  Notification.about (liked_notification c "<a href='/posts/0427'>a post</a>")
    = OK (JInt 427) /\
  Notification.about
    (liked_notification c "<a href='/people/4f2a' class='hovercardable'>B</a>")
    = OK (JList [JStr "4f2a"]).
Proof.
  intros c. split; [reflexivity | split; reflexivity].
Qed.

(** ** Comments: add, set, ids, indexing *)

Lemma store_truthy_cons (s : option (list Comment.t)) :
  Comments.store_truthy s = true <-> exists c l, s = Some (c :: l).
Proof.
  split.
  - destruct s as [[| c l] |]; simpl; try discriminate. eauto.
  - intros (c & l & ->). reflexivity.
Qed.

(** X1: on a container whose store is None or the empty list, [add] does
    nothing, however many comments are added one after the other: the
    container stays as it was and keeps yielding nothing. *)
Theorem Comments_add_on_empty_is_lost (cs : Comments.t)
    (added : list Comment.t) :
  Comments._comments cs = None \/ Comments._comments cs = Some [] ->
  let cs' := fold_left (fun acc cm => Comments.add cm acc) added cs in
  cs' = cs /\ Comments.__iter__ cs' = [] /\ Comments.__bool__ cs' = false.
Proof.
  intros Hcs cs'. subst cs'.
  assert (Hfold : fold_left (fun acc cm => Comments.add cm acc) added cs = cs).
  { induction added as [| cm added IH]; simpl; [reflexivity |].
    assert (Comments.add cm cs = cs) as ->; [| exact IH].
    unfold Comments.add. destruct Hcs as [-> | ->]; reflexivity. }
  rewrite Hfold. unfold Comments.__iter__, Comments.__bool__.
  destruct Hcs as [-> | ->]; auto.
Qed.

Lemma Comments_add_on_empty_is_lost_witness :
  let cm := Comment.mk (comment_item 1 "a1" "first") (JInt 1) (JStr "a1") in
  Comments.__iter__
    (fold_left (fun acc c => Comments.add c acc) [cm; cm]
               (Comments.__init__ None)) = [].
Proof.
  intros cm.
  apply (Comments_add_on_empty_is_lost (Comments.__init__ None) [cm; cm]).
  left. reflexivity.
Defined.

(** X2: on a container that holds comments, [add] puts the comment last:
    iteration yields the old comments and then the new one, the length
    grows by one, and the new comment is at index -1. *)
Theorem Comments_add_appends (cs : Comments.t) (cm : Comment.t) :
  Comments.__bool__ cs = true ->
  Comments.__iter__ (Comments.add cm cs) = Comments.__iter__ cs ++ [cm] /\
  Comments.__len__ (Comments.add cm cs)
    = Some (S (length (Comments.__iter__ cs))) /\
  Comments.__getitem__ (-1) (Comments.add cm cs) = OKx (Some cm).
Proof.
  unfold Comments.__bool__. intros H.
  destruct (Comments.store_truthy (Comments._comments cs)) eqn:Ht;
    [| discriminate].
  apply store_truthy_cons in Ht as (c & l & Hs).
  unfold Comments.add, Comments.__iter__, Comments.__len__,
    Comments.__getitem__.
  rewrite Hs. simpl Comments.store_truthy. cbn iota. simpl Comments._comments.
  cbn iota. split; [reflexivity | split].
  - simpl length. rewrite length_app. simpl. f_equal. lia.
  - change (c :: l ++ [cm]) with ((c :: l) ++ [cm]).
    unfold py_index.
    set (n := Z.of_nat (length ((c :: l) ++ [cm]))).
    assert (Hn : n = Z.of_nat (length (c :: l)) + 1).
    { unfold n. rewrite length_app. simpl length. lia. }
    assert (0 <= Z.of_nat (length (c :: l))) by lia.
    replace ((0 <=? -1) && (-1 <? n)) with false by reflexivity.
    replace ((- n <=? -1) && (-1 <? 0)) with true
      by (symmetry; apply andb_true_iff; split;
          [apply Z.leb_le; lia | reflexivity]).
    replace (Z.to_nat (n + -1)) with (length (c :: l)) by lia.
    rewrite lookup_app_r by lia. rewrite Nat.sub_diag. reflexivity.
Qed.

Lemma Comments_add_appends_witness :
  let c1 := Comment.mk (comment_item 1 "a1" "first") (JInt 1) (JStr "a1") in
  let c2 := Comment.mk (comment_item 2 "b2" "second") (JInt 2) (JStr "b2") in
  Comments.__iter__ (Comments.add c2 (Comments.__init__ (Some [c1])))
    = [c1; c2].
Proof.
  intros c1 c2.
  apply (Comments_add_appends (Comments.__init__ (Some [c1])) c2).
  reflexivity.
Defined.

Lemma comprehension_nil_inv {A B} (f : A -> res B) (l : list A) :
  comprehension f l = OK [] -> l = [].
Proof.
  intros H. apply comprehension_length in H.
  destruct l; [reflexivity | discriminate].
Qed.

(** X3: a container that holds comments cannot be emptied through its
    methods: after [add], after [set] of any list (the empty one
    included) and after any [set_json] that returns, it still holds
    comments; [set] and [set_json] of an empty list keep the old ones. *)
Theorem Comments_never_emptied (cs : Comments.t) :
  Comments.__bool__ cs = true ->
  (forall cm, Comments.__bool__ (Comments.add cm cs) = true) /\
  (forall l, Comments.__bool__ (Comments.set l cs) = true) /\
  (forall j cs', Comments.set_json j cs = OK cs' ->
                 Comments.__bool__ cs' = true) /\
  Comments.set [] cs = cs /\
  Comments.set_json (JList []) cs = OK cs.
Proof.
  unfold Comments.__bool__. intros H.
  destruct (Comments.store_truthy (Comments._comments cs)) eqn:Ht;
    [clear H | discriminate].
  split; [| split; [| split; [| split; reflexivity]]].
  - intros cm. unfold Comments.add. rewrite Ht.
    apply store_truthy_cons in Ht as (c & l & ->). reflexivity.
  - intros [| c l]; unfold Comments.set; simpl; [rewrite Ht |]; reflexivity.
  - intros j cs'. unfold Comments.set_json.
    destruct (truthy j) eqn:Hj.
    + cbv [mbind res_bind].
      destruct (py_iter j) as [items |] eqn:Hit; [| discriminate].
      destruct (comprehension Comment.__init__ items) as [l |] eqn:Hl;
        [| discriminate].
      intros [= <-]. simpl.
      destruct l as [| cm l]; [| reflexivity].
      apply comprehension_nil_inv in Hl. subst items.
      destruct j as [| | | s | l | d]; simpl in Hit, Hj; try discriminate.
      * destruct s; [discriminate | simpl in Hit; discriminate].
      * injection Hit as ->. discriminate.
      * destruct (map_to_list d); [discriminate | simpl in Hit; discriminate].
    + intros [= <-]. rewrite Ht. reflexivity.
Qed.

Lemma Comments_never_emptied_witness :
  let c1 := Comment.mk (comment_item 1 "a1" "first") (JInt 1) (JStr "a1") in
  Comments.__bool__ (Comments.set [] (Comments.__init__ (Some [c1]))) = true.
Proof.
  intros c1.
  destruct (Comments_never_emptied (Comments.__init__ (Some [c1])) eq_refl)
    as (_ & H & _).
  apply H.
Defined.

Lemma comprehension_ids (items : list json) (l : list Comment.t) :
  comprehension Comment.__init__ items = OK l ->
  Forall2 (fun item i => getitem item "id" = OK i) items (map Comment.id l).
Proof.
  revert l. induction items as [| item items IH]; intros l; simpl.
  - intros [= <-]. constructor.
  - cbv [mbind res_bind]. unfold Comment.__init__ at 1. cbv [mbind res_bind].
    destruct (getitem item "id") as [i |] eqn:Hi; [| discriminate].
    destruct (getitem item "guid") as [g |]; [| discriminate].
    destruct (comprehension Comment.__init__ items) as [l' |]; [| discriminate].
    intros [= <-]. simpl. constructor; [exact Hi | apply IH; reflexivity].
Qed.

(** X4: after [set_json] of a non-empty list of items has returned,
    [ids()] returns, in the order of the list, the value each item holds
    under 'id'.  On a container that was never given a store [ids()]
    raises TypeError, although iterating that container just yields
    nothing. *)
Theorem Comments_ids_follow_items (items : list json) (cs cs' : Comments.t) :
  items <> [] ->
  Comments.set_json (JList items) cs = OK cs' ->
  (exists l, Comments.ids cs' = OK l /\
             Forall2 (fun item i => getitem item "id" = OK i) items l) /\
  Comments.ids (Comments.__init__ None) = Raise TypeError /\
  Comments.__iter__ (Comments.__init__ None) = [].
Proof.
  intros Hne Hset. split; [| split; reflexivity].
  unfold Comments.set_json in Hset.
  destruct items as [| item items]; [congruence |].
  simpl truthy in Hset. cbv [py_iter mbind res_bind] in Hset.
  destruct (comprehension Comment.__init__ (item :: items)) as [l |] eqn:Hl;
    [| discriminate].
  injection Hset as <-. exists (map Comment.id l). split; [reflexivity |].
  apply comprehension_ids. exact Hl.
Qed.

Lemma Comments_ids_follow_items_witness :
  let items := [comment_item 4 "a1" "first"; comment_item 9 "b2" "second"] in
  exists cs', Comments.set_json (JList items) (Comments.__init__ None) = OK cs'
              /\ Comments.ids cs' = OK [JInt 4; JInt 9].
Proof.
  intros items. eexists. split; [reflexivity |].
  destruct (Comments_ids_follow_items items (Comments.__init__ None) _
              ltac:(discriminate) eq_refl) as ((l & Hl & Hall) & _).
  rewrite Hl. f_equal.
  inversion Hall as [| ? i1 ? l1 H1 Hall1]; subst.
  inversion Hall1 as [| ? i2 ? l2 H2 Hall2]; subst.
  inversion Hall2; subst.
  injection H1 as <-. injection H2 as <-. reflexivity.
Defined.

(** X5: indexing a container that holds N comments: an index 0 <= i < N
    gives the i-th comment yielded by iteration, and so does i - N,
    counting from the end; any other index is an IndexError.  A container
    whose store is None or empty gives None at every index, never an
    IndexError. *)
Theorem Comments_getitem_by_index (cs : Comments.t) (i : Z) :
  let n := Z.of_nat (length (Comments.__iter__ cs)) in
  (Comments.__bool__ cs = false ->
   Comments.__getitem__ i cs = OKx None) /\
  (Comments.__bool__ cs = true ->
   (0 <= i < n ->
    exists cm, Comments.__iter__ cs !! Z.to_nat i = Some cm /\
               Comments.__getitem__ i cs = OKx (Some cm) /\
               Comments.__getitem__ (i - n) cs = OKx (Some cm)) /\
   (i < - n \/ n <= i -> Comments.__getitem__ i cs = Raisex IndexError)).
Proof.
  intros n. subst n.
  unfold Comments.__bool__, Comments.__getitem__, Comments.__iter__.
  destruct (Comments.store_truthy (Comments._comments cs)) eqn:Ht.
  - split; [discriminate | intros _].
    apply store_truthy_cons in Ht as (c & l & ->).
    set (s := c :: l). set (n := Z.of_nat (length s)). unfold py_index.
    fold n. split.
    + intros Hi.
      assert (Hlt : (Z.to_nat i < length s)%nat) by lia.
      destruct (lookup_lt_is_Some_2 s _ Hlt) as [cm Hcm].
      exists cm. split; [exact Hcm | split].
      * replace ((0 <=? i) && (i <? n)) with true
          by (symmetry; apply andb_true_iff; split;
              [apply Z.leb_le | apply Z.ltb_lt]; lia).
        rewrite Hcm. reflexivity.
      * replace ((0 <=? i - n) && (i - n <? n)) with false
          by (symmetry; apply andb_false_iff; left; apply Z.leb_gt; lia).
        replace ((- n <=? i - n) && (i - n <? 0)) with true
          by (symmetry; apply andb_true_iff; split;
              [apply Z.leb_le | apply Z.ltb_lt]; lia).
        replace (n + (i - n)) with i by lia. rewrite Hcm. reflexivity.
    + intros Hi.
      replace ((0 <=? i) && (i <? n)) with false
        by (symmetry; apply andb_false_iff;
            destruct Hi; [left; apply Z.leb_gt | right; apply Z.ltb_ge]; lia).
      replace ((- n <=? i) && (i <? 0)) with false
        by (symmetry; apply andb_false_iff;
            destruct Hi; [left; apply Z.leb_gt | right; apply Z.ltb_ge]; lia).
      reflexivity.
  - split; [reflexivity | discriminate].
Qed.

Lemma Comments_getitem_by_index_witness :
  let c1 := Comment.mk (comment_item 1 "a1" "first") (JInt 1) (JStr "a1") in
  let c2 := Comment.mk (comment_item 2 "b2" "second") (JInt 2) (JStr "b2") in
  let cs := Comments.__init__ (Some [c1; c2]) in
  Comments.__getitem__ (-1) cs = OKx (Some c2) /\
  Comments.__getitem__ 2 cs = Raisex IndexError /\
  Comments.__getitem__ 2 (Comments.__init__ (Some [])) = OKx None.
Proof.
  intros c1 c2 cs. split; [| split].
  - destruct (Comments_getitem_by_index cs 1) as (_ & H).
    destruct (H eq_refl) as (Hin & _).
    destruct (Hin ltac:(simpl; lia)) as (cm & Hcm & _ & Hneg).
    injection Hcm as <-. exact Hneg.
  - destruct (Comments_getitem_by_index cs 2) as (_ & H).
    destruct (H eq_refl) as (_ & Hout). apply Hout. right. simpl. lia.
  - apply (Comments_getitem_by_index (Comments.__init__ (Some [])) 2).
    reflexivity.
Defined.

(** ** Comment *)

(** X6: a comment made from a payload is a view of that payload: its id
    and guid are the payload's, [str] is the payload's text, [when()] its
    creation time and [author(key)] the entry of its author dict.  The
    constructor asks for 'id' and 'guid' only, so a payload without
    'text' makes a comment whose [str] raises KeyError. *)
Theorem Comment_is_view_of_payload (data : json) (cm : Comment.t)
    (key : string) :
  Comment.__init__ data = OK cm ->
  getitem data "id" = OK (Comment.id cm) /\
  getitem data "guid" = OK (Comment.guid cm) /\
  Comment.__str__ cm = getitem data "text" /\
  Comment.when cm = getitem data "created_at" /\
  Comment.author key cm = (a ← getitem data "author"; getitem a key) /\
  exists d, data = JDict d /\
            (d !! "text" = None ->
             Comment.__str__ cm = Raise (KeyError (JStr "text"))).
Proof.
  unfold Comment.__init__. cbv [mbind res_bind].
  destruct (getitem data "id") as [i |] eqn:Hi; [| discriminate].
  destruct (getitem data "guid") as [g |] eqn:Hg; [| discriminate].
  intros [= <-]. simpl.
  unfold Comment.__str__, Comment.when, Comment.author. simpl.
  repeat (split; [reflexivity |]).
  destruct data as [| | | | | d]; try discriminate.
  exists d. split; [reflexivity |]. intros Ht. simpl. rewrite Ht. reflexivity.
Qed.

Lemma Comment_is_view_of_payload_witness :
  exists cm, Comment.__init__ (comment_item 1 "a1" "first") = OK cm /\
             Comment.__str__ cm = OK (JStr "first").
Proof.
  eexists. split; [reflexivity |].
  destruct (Comment_is_view_of_payload (comment_item 1 "a1" "first") _ "name"
              eq_refl) as (_ & _ & -> & _).
  reflexivity.
Defined.

(** ** Conversation: construction, subject, answer *)

(** X7: [Conversation(connection, id)] sends one GET for
    conversations/{id}.json.  A status other than 200 raises
    ConversationError, so no object is made; on 200 the object's data is
    what the decoded body holds under 'conversation', and [get_subject()]
    then returns the 'subject' of it.  With [fetch=False] nothing is sent
    and, the data being the empty dict, [get_subject()] raises KeyError. *)
Theorem Conversation_init_fetches (c : Connection) (cv_id : json)
    (log : list Request) :
  let r := pod c log (conversation_request cv_id) in
  let made := Conversation.__init__ c cv_id true log in
  snd made = log ++ [conversation_request cv_id] /\
  (status_code r <> 200 ->
   fst made = Raise (ConversationError
     (Format "cannot download conversation data: {0}"
             [JInt (status_code r)]))) /\
  (status_code r = 200 ->
   forall j d, body r = Some j -> getitem j "conversation" = OK d ->
   fst made = OK (Conversation.mk c cv_id d) /\
   Conversation.get_subject (Conversation.mk c cv_id d)
     = getitem d "subject") /\
  Conversation.__init__ c cv_id false log
    = (OK (Conversation.mk c cv_id (JDict ∅)), log) /\
  Conversation.get_subject (Conversation.mk c cv_id (JDict ∅))
    = Raise (KeyError (JStr "subject")).
Proof.
  intros r made. subst made.
  unfold Conversation.__init__, Conversation._fetch, Conversation.set_data.
  unfold_monad. simpl. fold (conversation_request cv_id). fold r.
  destruct (Z.eqb_spec (status_code r) 200) as [E | E]; simpl.
  - split; [| split; [congruence | split; [| split; reflexivity]]].
    + unfold Response_json. destruct (body r) as [j |]; simpl; [| reflexivity].
      destruct (getitem j "conversation"); reflexivity.
    + intros _ j d Hb Hd. unfold Response_json. rewrite Hb. simpl.
      rewrite Hd. simpl. split; reflexivity.
  - split; [reflexivity | split; [reflexivity |]].
    split; [congruence | split; reflexivity].
Qed.

Lemma Conversation_init_fetches_witness :
  let thread := JDict {["subject" := JStr "hello"]} in
  let c := constant_pod 200 (Some (JDict {["conversation" := thread]})) in
  fst (Conversation.__init__ c (JInt 4) true [])
    = OK (Conversation.mk c (JInt 4) thread) /\
  fst (Conversation.__init__ (constant_pod 404 None) (JInt 4) true [])
    = Raise (ConversationError
               (Format "cannot download conversation data: {0}" [JInt 404])).
Proof.
  intros thread c. split.
  - destruct (Conversation_init_fetches c (JInt 4) []) as (_ & _ & H & _).
    apply (H eq_refl _ thread eq_refl eq_refl).
  - destruct (Conversation_init_fetches (constant_pod 404 None) (JInt 4) [])
      as (_ & H & _).
    apply H. discriminate.
Defined.

(** X8: [answer(text)] sends one POST to conversations/{id}/messages and
    raises ConversationError exactly when the status is not 200; on 200
    it returns the decoded body.  In every case the conversation object
    is left as it was: the new message is not added to its data. *)
Theorem Conversation_answer_by_status (cv : Conversation.t) (text : json)
    (log : list Request) :
  let r := pod (Conversation._connection cv) log (answer_request cv text) in
  let out := call (Conversation.answer text) cv log in
  sent (snd out) = log ++ [answer_request cv text] /\
  self (snd out) = cv /\
  ((exists msg, fst out = Raise (ConversationError msg))
   <-> status_code r <> 200) /\
  (status_code r <> 200 ->
   fst out = Raise (ConversationError
     (Format "{0}: Answer could not be posted." [JInt (status_code r)]))) /\
  (status_code r = 200 -> fst out = Response_json r).
Proof.
  intros r out. subst out. unfold Conversation.answer. unfold_monad. simpl.
  fold (answer_request cv text). fold r.
  destruct (Z.eqb_spec (status_code r) 200) as [E | E]; simpl.
  - repeat split; try congruence.
    intros (msg & H). unfold Response_json in H.
    destruct (body r); discriminate.
  - repeat split; eauto; congruence.
Qed.

Lemma Conversation_answer_by_status_witness :
  let cv s := Conversation.mk (constant_pod s (Some (JDict ∅))) (JInt 4)
                              (JDict ∅) in
  fst (call (Conversation.answer (JStr "hi")) (cv 200) []) = OK (JDict ∅) /\
  fst (call (Conversation.answer (JStr "hi")) (cv 500) [])
    = Raise (ConversationError
               (Format "{0}: Answer could not be posted." [JInt 500])).
Proof.
  intros cv. split.
  - destruct (Conversation_answer_by_status (cv 200) (JStr "hi") [])
      as (_ & _ & _ & _ & H).
    rewrite (H eq_refl). reflexivity.
  - destruct (Conversation_answer_by_status (cv 500) (JStr "hi") [])
      as (_ & _ & _ & H & _).
    apply H. discriminate.
Defined.

(** ** Aspect: the cached members, removal *)

(** X9: [getUsers()] sends one GET for contacts.json?a_id={id} and,
    whatever the status of the answer, caches and returns the decoded
    body; [getUsers(fetch=False)] called next returns the same value
    without sending anything.  When the body does not decode the call
    raises and the cache is left as it was. *)
Theorem Aspect_getUsers_caches (a : Aspect.t) (log : list Request) :
  let r := pod (Aspect._connection a) log (contacts_request a) in
  let out := call (Aspect.getUsers true) a log in
  sent (snd out) = log ++ [contacts_request a] /\
  (forall j, body r = Some j ->
   fst out = OK j /\
   call (Aspect.getUsers false) (self (snd out)) (sent (snd out))
     = (OK j, snd out)) /\
  (body r = None ->
   fst out = Raise JSONDecodeError /\ self (snd out) = a) /\
  call (Aspect.getUsers false) a log = (OK (Aspect._cached a), mkWorld a log).
Proof.
  intros r out. subst out. unfold Aspect.getUsers, Aspect.set_cached.
  unfold_monad. simpl. fold (contacts_request a). fold r.
  unfold Response_json.
  split; [| split; [| split; [| reflexivity]]].
  - destruct (body r); reflexivity.
  - intros j ->. simpl. split; reflexivity.
  - intros ->. simpl. split; reflexivity.
Qed.

Lemma Aspect_getUsers_caches_witness :
  let members := JList [JStr "4f2a"; JStr "77b0"] in
  let a := Aspect.__init__ (constant_pod 500 (Some members)) (JInt 3) JNull in
  fst (call (Aspect.getUsers true) a []) = OK members.
Proof.
  intros members a.
  destruct (Aspect_getUsers_caches a []) as (_ & H & _).
  apply (H members eq_refl).
Defined.

(** X10: [removeAspect()] sends one DELETE for aspects/{id} and returns
    normally exactly when the status is 302; any other status, 200
    included, raises AspectError. *)
Theorem Aspect_removeAspect_302_only (a : Aspect.t) (log : list Request) :
  let r := pod (Aspect._connection a) log (removeAspect_request a) in
  let out := call Aspect.removeAspect a log in
  sent (snd out) = log ++ [removeAspect_request a] /\
  (fst out = OK tt <-> status_code r = 302) /\
  (status_code r <> 302 ->
   fst out = Raise (AspectError
     (Format "wrong status code: {0}" [JInt (status_code r)]))).
Proof.
  intros r out. subst out. unfold Aspect.removeAspect. unfold_monad. simpl.
  fold (removeAspect_request a). fold r.
  destruct (Z.eqb_spec (status_code r) 302) as [E | E]; simpl;
    repeat split; intros; congruence.
Qed.

Lemma Aspect_removeAspect_302_only_witness :
  let a s := Aspect.__init__ (constant_pod s None) (JInt 3) JNull in
  fst (call Aspect.removeAspect (a 302) []) = OK tt /\
  fst (call Aspect.removeAspect (a 200) [])
    = Raise (AspectError (Format "wrong status code: {0}" [JInt 200])).
Proof.
  intros a. split.
  - apply (Aspect_removeAspect_302_only (a 302) []). reflexivity.
  - apply (Aspect_removeAspect_302_only (a 200) []). discriminate.
Defined.

(** ** Notification: items and attributes, the subject of a note *)

Lemma Notification_init_unread (c : Connection) (data : json)
    (n : Notification.t) :
  Notification.__init__ c data = OK n ->
  getitem (Notification._data n) "id" = OK (Notification.id n) /\
  getitem (Notification._data n) "unread" = OK (Notification.unread n) /\
  exists m, data = JDict m /\
            m !! "type" = Some (Notification.type n) /\
            dict_getitem m (Notification.type n) = OK (Notification._data n).
Proof.
  unfold Notification.__init__. cbv [mbind res_bind].
  destruct data as [| | | | | m]; try discriminate.
  unfold getitem at 1. unfold dict_getitem at 1.
  destruct (m !! "type") as [ty |] eqn:Hty; [| discriminate].
  destruct (dict_getitem m ty) as [d |] eqn:Hd; [| discriminate].
  destruct (getitem d "id") as [i |] eqn:Hi; [| discriminate].
  destruct (getitem d "unread") as [u |] eqn:Hu; [| discriminate].
  intros [= <-]. simpl. repeat split; try assumption.
  exists m. auto.
Qed.

(** X11: on a notification made by the constructor, [n['id']] and
    [n['unread']] are the attributes [id] and [unread], both read from
    the payload stored under the envelope's type.  [mark(unread)] writes
    the item only: afterwards [n['unread']] is the argument while the
    attribute [unread] still has the value the constructor read, and the
    id is untouched. *)
Theorem Notification_mark_leaves_attribute_stale (c : Connection)
    (data : json) (n : Notification.t) (unread : bool) (log : list Request) :
  Notification.__init__ c data = OK n ->
  let n' := self (snd (call (Notification.mark unread) n log)) in
  Notification.__getitem__ "id" n = OK (Notification.id n) /\
  Notification.__getitem__ "unread" n = OK (Notification.unread n) /\
  Notification.__getitem__ "unread" n' = OK (JBool unread) /\
  Notification.unread n' = Notification.unread n /\
  Notification.__getitem__ "id" n' = OK (Notification.id n') /\
  Notification.id n' = Notification.id n.
Proof.
  intros Hinit n'. subst n'.
  destruct (Notification_init_unread c data n Hinit) as (Hid & Hun & _).
  unfold Notification.__getitem__.
  split; [exact Hid | split; [exact Hun |]].
  unfold Notification.mark. unfold_monad. simpl. rewrite Hid. simpl.
  destruct (Notification._data n) as [| | | | | d]; try discriminate.
  simpl. rewrite lookup_insert_eq.
  split; [reflexivity | split; [reflexivity | split; [| reflexivity]]].
  unfold getitem, dict_getitem in Hid.
  rewrite lookup_insert_ne by discriminate. exact Hid.
Qed.

Lemma Notification_mark_leaves_attribute_stale_witness :
  let envelope :=
    JDict (<["type" := JStr "liked"]>
             {["liked" := JDict (liked_payload "<p>x</p>")]}) in
  let n := liked_notification (constant_pod 200 None) "<p>x</p>" in
  let n' := self (snd (call (Notification.mark false) n [])) in
  Notification.__getitem__ "unread" n' = OK (JBool false) /\
  Notification.unread n' = JBool true.
Proof.
  intros envelope n n'.
  destruct (Notification_mark_leaves_attribute_stale (constant_pod 200 None)
              envelope n false [] eq_refl) as (_ & _ & H1 & H2 & _).
  split; [exact H1 | exact H2].
Defined.

Lemma is_digit_value (c : ascii) :
  is_digit c = true -> 0 <= Z.of_nat (nat_of_ascii c) - 48.
Proof.
  destruct c as [[] [] [] [] [] [] [] []]; vm_compute; congruence.
Qed.

Lemma int_digits_outcome (s : list ascii) :
  forall acc, 0 <= acc ->
    int_digits acc s = Raise ValueError \/
    exists z, 0 <= z /\ int_digits acc s = OK z.
Proof.
  induction s as [| c s IH]; intros acc Hacc; simpl.
  - right. eauto.
  - destruct (is_digit c) eqn:Hc; [| left; reflexivity].
    apply IH. pose proof (is_digit_value c Hc). lia.
Qed.

Lemma search_aboutid_finds (pre : list ascii) (h : ascii)
    (post : list ascii) :
  is_hex h = true ->
  search Notification._aboutid_regexp (pre ++ chars "/posts/" ++ h :: post)
    <> None.
Proof.
  intros Hh. induction pre as [| c pre IH].
  - rewrite app_nil_l.
    assert (Hm : exists m, match_here Notification._aboutid_regexp
                             (chars "/posts/" ++ h :: post) = Some m).
    { unfold Notification._aboutid_regexp. cbn [match_here].
      rewrite strip_prefix_app. cbn [plus_greedy match_here]. rewrite Hh.
      destruct (plus_greedy is_hex _ post) as [[chunk [cs r]] |]; eauto. }
    destruct Hm as ([chunks r] & Hm).
    destruct (chars "/posts/" ++ h :: post) as [| c s] eqn:E;
      [discriminate |].
    cbn [search]. rewrite Hm. discriminate.
  - rewrite <- app_comm_cons. cbn [search].
    destruct (match_here _ _) as [[chunks r] |]; [discriminate | exact IH].
Qed.

(** X12: what [about()] returns is decided by whether note_html holds
    "/posts/" followed by a hex digit.  If it does not, the result is the
    list of [who()]; if it does, the result is a non-negative integer or
    the call raises ValueError, and the list of [who()] is never
    returned. *)
Theorem Notification_about_reference_or_who (n : Notification.t)
    (html : string) :
  getitem (Notification._data n) "note_html" = OK (JStr html) ->
  ((forall pre h post,
      chars html = pre ++ chars "/posts/" ++ h :: post -> is_hex h = false) ->
   Notification.about n
     = (w ← Notification.who n; OK (JList (map JStr w)))) /\
  (forall pre h post,
     chars html = pre ++ chars "/posts/" ++ h :: post -> is_hex h = true ->
     Notification.about n = Raise ValueError \/
     exists z, 0 <= z /\ Notification.about n = OK (JInt z)).
Proof.
  intros Hhtml. split.
  - intros Hnone.
    apply (Notification_about_falls_back_to_who n html Hhtml).
    destruct (search Notification._aboutid_regexp (chars html)) as [chunks |]
      eqn:Hs; [| reflexivity].
    destruct (search_aboutid_Some _ _ Hs)
      as (g & _ & Hne & Hhex & pre & post & E).
    destruct g as [| h g]; [congruence |].
    simpl in Hhex. apply andb_true_iff in Hhex as [Hh _].
    rewrite (Hnone pre h (g ++ post)) in Hh; [discriminate |].
    rewrite E. reflexivity.
  - intros pre h post E Hh.
    pose proof (search_aboutid_finds pre h post Hh) as Hfound.
    rewrite <- E in Hfound.
    destruct (search Notification._aboutid_regexp (chars html)) as [chunks |]
      eqn:Hs; [| congruence].
    destruct (Notification_about_reference n html chunks Hhtml Hs)
      as (g & _ & Hne & _ & ->).
    destruct g as [| c g]; [congruence |]. unfold py_int.
    destruct (int_max_str_digits <? Z.of_nat (length (c :: g)));
      [left; reflexivity |].
    destruct (int_digits_outcome (c :: g) 0 ltac:(lia)) as [-> | (z & Hz & ->)].
    + left. reflexivity.
    + right. exists z. split; [exact Hz | reflexivity].
Qed.

Lemma Notification_about_reference_or_who_witness :
  let n := liked_notification (constant_pod 200 None)
                              "<a href='/posts/0427'>a post</a>" in
  Notification.about n = Raise ValueError \/
  exists z, 0 <= z /\ Notification.about n = OK (JInt z).
Proof.
  intros n.
  destruct (Notification_about_reference_or_who n
              "<a href='/posts/0427'>a post</a>" eq_refl) as (_ & H).
  apply (H (chars "<a href='") "0"%char (chars "427'>a post</a>"));
    reflexivity.
Defined.

(** ** Post: construction *)

Lemma getitem_truthy (j : json) (k : string) (v : json) :
  getitem j k = OK v -> truthy j = true.
Proof.
  destruct j as [| | | | | d]; try discriminate.
  unfold getitem, dict_getitem. destruct (d !! k) eqn:Hk; [| discriminate].
  intros _. simpl. destruct (map_to_list d) eqn:E; [| reflexivity].
  apply map_to_list_empty_iff in E. subst d. rewrite lookup_empty in Hk.
  discriminate.
Qed.

(** A call of [_fetchdata] that returns has sent the one GET, got 200 and
    stored a body that holds a guid. *)
Lemma fetchdata_returns (p : Post.t) (log : list Request) (g : json)
    (w : World Post.t) :
  Post._fetchdata (mkWorld p log) = (OK g, w) ->
  exists key j,
    Post.fetch_key p = Some key /\
    w = mkWorld (Post.mk (Post._connection p) (Post.id p) (Post.guid p) j
                         (Post.comments p))
                (log ++ [fetchdata_request key]) /\
    getitem j "guid" = OK g.
Proof.
  unfold Post._fetchdata, Post.__getitem__, Post.set_data. unfold_monad.
  simpl. destruct (Post.fetch_key p) as [key |]; simpl; [| discriminate].
  fold (fetchdata_request key).
  set (r := pod (Post._connection p) log (fetchdata_request key)).
  destruct (Z.eqb_spec (status_code r) 200) as [E | E]; simpl;
    [| discriminate].
  unfold Response_bool. rewrite E. simpl.
  unfold Response_json. destruct (body r) as [j |]; simpl; [| discriminate].
  destruct (getitem j "guid") as [g' |] eqn:Hg; [| discriminate].
  intros [= <- <-]. exists key, j. auto.
Qed.

Lemma fetchcomments_keeps_data (p : Post.t) (log : list Request) :
  let p' := self (snd (Post._fetchcomments (mkWorld p log))) in
  Post._data p' = Post._data p /\ Post.id p' = Post.id p /\
  Post.guid p' = Post.guid p.
Proof.
  unfold Post._fetchcomments, Post.__getitem__, Post.set_comments.
  unfold_monad. simpl.
  destruct (getitem (Post._data p) "id"); simpl; [| auto].
  destruct (getitem (Post._data p) "interactions") as [inter |]; simpl;
    [| auto].
  destruct (getitem inter "comments_count") as [cnt |]; simpl; [| auto].
  destruct (truthy cnt); simpl; [| auto].
  destruct (status_code _ =? 200); simpl; [| auto].
  destruct (Response_json _) as [j |]; simpl; [| auto].
  destruct (py_iter j) as [items |]; simpl; [| auto].
  destruct (comprehension Comment.__init__ items); simpl; auto.
Qed.

Lemma fetchcomments_returns_id (p : Post.t) (log : list Request)
    (w : World Post.t) :
  Post._fetchcomments (mkWorld p log) = (OK tt, w) ->
  exists i, getitem (Post._data p) "id" = OK i.
Proof.
  unfold Post._fetchcomments. unfold_monad. simpl.
  destruct (getitem (Post._data p) "id") as [i |]; simpl; [eauto |].
  discriminate.
Qed.

(** X13: the requests of a construction that succeeds.  The data of the
    post is requested once, by guid if a guid was given and else by id,
    unless [post_data] was passed and [fetch] is false, in which case it
    is not requested at all; it is never requested twice.  The comments
    are requested after it, at most once, only if [comments] is true and
    the data reports a comment count that is nonzero, by the id found in
    the data. *)
Theorem Post_init_requests (c : Connection) (id guid : json)
    (fetch fetch_comments : bool) (post_data : json) (log log' : list Request)
    (p : Post.t) :
  Post.__init__ c id guid fetch fetch_comments post_data log = (OK p, log') ->
  let key := if truthy guid then guid else id in
  let data_gets :=
    if fetch || negb (truthy post_data) then [fetchdata_request key]
    else [] in
  Post.id p = id /\ Post.guid p = guid /\
  (fetch_comments = false -> log' = log ++ data_gets) /\
  (fetch_comments = true ->
   exists i, getitem (Post._data p) "id" = OK i /\
     log' = log ++ data_gets
              ++ match comments_count (Post._data p) with
                 | OK cnt => if truthy cnt then [comments_request i] else []
                 | Raise _ => []
                 end).
Proof.
  unfold Post.__init__.
  destruct (truthy guid || truthy id) eqn:Hgi; simpl; [| discriminate].
  set (p0 := Post.mk c id guid _ _).
  assert (Hkey : Post.fetch_key p0
                 = Some (if truthy guid then guid else id)).
  { unfold Post.fetch_key. simpl. destruct (truthy guid); [reflexivity |].
    simpl in Hgi. rewrite Hgi. reflexivity. }
  (* the world after the data has been fetched, or taken from post_data *)
  assert (Hphase : forall (k : M Post.t unit) r w,
    ((if fetch then Post._fetchdata ;; mret tt else mret tt) ;;
     (q ← get_self;
      if negb (truthy (Post._data q)) then Post._fetchdata ;; mret tt
      else mret tt) ;; k) (mkWorld p0 log) = (OK r, w) ->
    exists d,
      truthy d = true /\
      k (mkWorld (Post.mk c id guid d (Comments.__init__ None))
                 (log ++ if fetch || negb (truthy post_data)
                         then [fetchdata_request
                                 (if truthy guid then guid else id)]
                         else [])) = (OK r, w)).
  { intros k r w. subst p0.
    destruct (truthy post_data) eqn:Hpd; destruct fetch; unfold_monad; simpl;
      rewrite ?map_to_list_empty; simpl.
    all: try (destruct (Post._fetchdata _) as [[g | e] w1] eqn:F;
              [| discriminate];
              apply fetchdata_returns in F as (key & j & Hk & -> & Hg);
              rewrite Hkey in Hk; injection Hk as <-; simpl;
              rewrite ?(getitem_truthy _ _ _ Hg); simpl;
              intros H; exists j;
              split; [exact (getitem_truthy _ _ _ Hg) | exact H]).
    rewrite Hpd. simpl. rewrite app_nil_r. intros H. exists post_data.
    split; assumption. }
  cbv zeta. destruct fetch_comments.
  - match goal with
    | |- (let (_, _) := ?m in _) = _ -> _ =>
        destruct m as [[u | e] w] eqn:Hrun; [| discriminate]
    end.
    intros [= <- <-].
    apply Hphase in Hrun as (d & Hd & Hrun).
    set (p1 := Post.mk c id guid d (Comments.__init__ None)) in *.
    set (log1 := log ++ _) in *.
    destruct u.
    pose proof (fetchcomments_keeps_data p1 log1) as (Hdata & Hid & Hguid).
    destruct (fetchcomments_returns_id _ _ _ Hrun) as (i & Hi).
    pose proof (fetchcomments_sent p1 log1 i Hi) as Hsent.
    unfold call in Hsent. rewrite Hrun in Hdata, Hid, Hguid, Hsent.
    simpl in Hdata, Hid, Hguid, Hsent.
    split; [exact Hid | split; [exact Hguid | split; [discriminate |]]].
    intros _. exists i. rewrite Hdata. split; [exact Hi |].
    rewrite Hsent. unfold log1. simpl Post._data.
    destruct (comments_count d) as [cnt |]; [destruct (truthy cnt) |];
      rewrite ?app_nil_r, <- ?app_assoc; reflexivity.
  - match goal with
    | |- (let (_, _) := ?m in _) = _ -> _ =>
        destruct m as [[u | e] w] eqn:Hrun; [| discriminate]
    end.
    intros [= <- <-].
    apply Hphase in Hrun as (d & Hd & Hrun).
    revert Hrun. unfold Post.__getitem__, Post.set_comments. unfold_monad.
    simpl.
    destruct (getitem d "interactions") as [inter |]; simpl; [| discriminate].
    destruct (getitem inter "comments") as [cs |]; simpl; [| discriminate].
    destruct (Comments.set_json cs (Comments.__init__ None)) as [cs' |];
      simpl; [| discriminate].
    intros [= _ <-]. simpl.
    split; [reflexivity | split; [reflexivity | split; [reflexivity |]]].
    discriminate.
Qed.

Lemma Post_init_requests_witness :
  snd (Post.__init__ example_pod (JInt 0) (JStr "abc") false true JNull [])
    = [fetchdata_request (JStr "abc"); comments_request (JInt 5)].
Proof.
  destruct (Post.__init__ example_pod (JInt 0) (JStr "abc") false true JNull [])
    as [r log'] eqn:E.
  assert (Hr : exists p, r = OK p /\ Post._data p
                                     = JDict (post_payload 5 "abc" 2 [])).
  { vm_compute in E. injection E as <- _. eexists. split; reflexivity. }
  destruct Hr as (p & -> & Hd).
  destruct (Post_init_requests _ _ _ _ _ _ _ _ _ E) as (_ & _ & _ & H).
  destruct (H eq_refl) as (i & Hi & ->).
  rewrite Hd in Hi |- *. injection Hi as <-. reflexivity.
Defined.

(** X14: a post made from data already at hand ([post_data] given, no
    fetch, no comments fetch) sends nothing: its data is [post_data] and
    its comments are those that [post_data] holds under
    interactions.comments. *)
Theorem Post_init_from_post_data (c : Connection) (id guid d inter cs : json)
    (cs' : Comments.t) (log : list Request) :
  truthy guid || truthy id = true ->
  truthy d = true ->
  getitem d "interactions" = OK inter ->
  getitem inter "comments" = OK cs ->
  Comments.set_json cs (Comments.__init__ None) = OK cs' ->
  Post.__init__ c id guid false false d log
    = (OK (Post.mk c id guid d cs'), log).
Proof.
  intros Hgi Hd Hinter Hcs Hset.
  unfold Post.__init__, Post.__getitem__, Post.set_comments.
  rewrite Hgi, Hd. unfold_monad. simpl. rewrite Hd. simpl.
  rewrite Hinter. simpl. rewrite Hcs. simpl. rewrite Hset. reflexivity.
Qed.

Lemma Post_init_from_post_data_witness :
  let item := comment_item 1 "a1" "first" in
  let d := JDict (<["guid" := JStr "abc"]>
                    {["interactions" :=
                        JDict {["comments" := JList [item]]}]}) in
  exists p,
    Post.__init__ (constant_pod 500 None) (JInt 0) (JStr "abc") false false d []
      = (OK p, []) /\
    Comments.len (Post.comments p) = OK 1%nat.
Proof.
  intros item d. eexists. split.
  - apply (Post_init_from_post_data (constant_pod 500 None) (JInt 0)
             (JStr "abc") d (JDict {["comments" := JList [item]]})
             (JList [item])); reflexivity.
  - reflexivity.
Defined.

(** ** Post: data, deletion, likes *)

(** X15: [data(d)] with a payload [d] that is not None replaces the data
    of the post, the empty dict included, and returns it; [data()] called
    next returns that same payload.  Neither call sends a request, and
    the comments container is left as it was. *)
Theorem Post_data_set_then_get (p : Post.t) (d : json) (log : list Request) :
  d <> JNull ->
  let out := call (Post.data d) p log in
  fst out = OK d /\
  sent (snd out) = log /\
  Post.comments (self (snd out)) = Post.comments p /\
  call (Post.data JNull) (self (snd out)) (sent (snd out)) = (OK d, snd out) /\
  call (Post.data JNull) p log = (OK (Post._data p), mkWorld p log).
Proof.
  intros Hd out. subst out. unfold Post.data, Post.set_data. unfold_monad.
  destruct d; try congruence; simpl; auto 10.
Qed.

Lemma Post_data_set_then_get_witness :
  let p := Post.mk (constant_pod 500 None) (JInt 5) (JStr "abc")
                   (JDict (post_payload 5 "abc" 0 []))
                   (Comments.__init__ None) in
  fst (call (Post.data (JDict ∅)) p []) = OK (JDict ∅).
Proof.
  intros p.
  apply (Post_data_set_then_get p (JDict ∅) []). discriminate.
Defined.

(** X16: [delete()] and [delete_comment(comment_id)] each send one DELETE
    and raise PostError exactly when the status is not 204.  Neither
    changes the post object: after a comment was deleted on the pod, the
    post's container still holds it. *)
Theorem Post_delete_204_only (p : Post.t) (comment_id : json)
    (log : list Request) :
  let r1 := pod (Post._connection p) log (delete_post_request p) in
  let out1 := call Post.delete p log in
  let r2 := pod (Post._connection p) log
                (delete_comment_request p comment_id) in
  let out2 := call (Post.delete_comment comment_id) p log in
  (snd out1 = mkWorld p (log ++ [delete_post_request p]) /\
   (fst out1 = OK tt <-> status_code r1 = 204) /\
   (status_code r1 <> 204 ->
    fst out1 = Raise (PostError
      (Format "{0}: Post could not be deleted" [JInt (status_code r1)])))) /\
  (snd out2 = mkWorld p (log ++ [delete_comment_request p comment_id]) /\
   (fst out2 = OK tt <-> status_code r2 = 204) /\
   (status_code r2 <> 204 ->
    fst out2 = Raise (PostError
      (Format "{0}: Comment could not be deleted"
              [JInt (status_code r2)])))).
Proof.
  intros r1 out1 r2 out2. subst out1 out2.
  unfold Post.delete, Post.delete_comment. unfold_monad. simpl.
  fold (delete_post_request p). fold (delete_comment_request p comment_id).
  fold r1. fold r2.
  destruct (Z.eqb_spec (status_code r1) 204) as [E1 | E1];
    destruct (Z.eqb_spec (status_code r2) 204) as [E2 | E2]; simpl;
    repeat split; intros; congruence.
Qed.

Lemma Post_delete_204_only_witness :
  let p s := Post.mk (constant_pod s None) (JInt 5) (JStr "abc")
                     (JDict (post_payload 5 "abc" 0 []))
                     (Comments.__init__ None) in
  fst (call Post.delete (p 204) []) = OK tt /\
  fst (call (Post.delete_comment (JInt 8)) (p 200) [])
    = Raise (PostError
               (Format "{0}: Comment could not be deleted" [JInt 200])).
Proof.
  intros p. split.
  - apply (Post_delete_204_only (p 204) JNull []). reflexivity.
  - apply (Post_delete_204_only (p 200) (JInt 8) []). discriminate.
Defined.

(** X17: [delete_like()] removes the like that [like()] recorded.  After
    a [like()] answered 201 with the like object [j], whose id is [lid],
    [delete_like()] sends the DELETE for posts/{id}/likes/{lid}, and it
    raises PostError exactly when the status is not 204. *)
Theorem Post_delete_like_after_like (p : Post.t) (log : list Request)
    (j lid : json) (d inter : gmap string json) :
  status_code (pod (Post._connection p) log (like_request p)) = 201 ->
  body (pod (Post._connection p) log (like_request p)) = Some j ->
  truthy j = true ->
  getitem j "id" = OK lid ->
  Post._data p = JDict d ->
  d !! "interactions" = Some (JDict inter) ->
  let w1 := snd (call Post.like p log) in
  let r := pod (Post._connection p) (sent w1)
               (delete_like_request p lid) in
  let out := callx Post.delete_like (self w1) (sent w1) in
  sent (snd out) = log ++ [like_request p; delete_like_request p lid] /\
  (fst out = OKx tt <-> status_code r = 204) /\
  (status_code r <> 204 ->
   fst out = Raisex (Core (PostError
     (Format "{0}: Like could not be removed." [JInt (status_code r)])))).
Proof.
  intros Hs Hb Hj Hlid Hd Hinter w1 r out. subst out r w1.
  assert (Hlike : call Post.like p log
                  = (OK j,
                     mkWorld (Post.mk (Post._connection p) (Post.id p)
                                (Post.guid p)
                                (JDict (<["interactions" :=
                                   JDict (<["likes" := JList [j]]> inter)]> d))
                                (Post.comments p))
                             (log ++ [like_request p]))).
  { unfold Post.like, Post.set_data. unfold_monad. simpl.
    fold (like_request p). rewrite Hs. simpl.
    unfold Response_json. rewrite Hb. simpl. rewrite Hj. simpl.
    rewrite Hd. simpl. rewrite Hinter. reflexivity. }
  rewrite Hlike. simpl.
  unfold Post.delete_like, callx. unfold_monadx. simpl.
  rewrite lookup_insert_eq. simpl. rewrite lookup_insert_eq. simpl.
  rewrite Hlid. simpl.
  unfold Post.authenticity, delete_like_request. simpl.
  set (rq := mkRequest DELETE _ _ _ _).
  set (r := pod (Post._connection p) (log ++ [like_request p]) rq).
  rewrite <- app_assoc. simpl.
  destruct (Z.eqb_spec (status_code r) 204) as [E | E]; simpl;
    repeat split; intros; congruence.
Qed.

Lemma Post_delete_like_after_like_witness :
  let like := JDict {["id" := JInt 31]} in
  let p := Post.mk (scripted_pod [mkResponse 201 (Some like)]
                                 (mkResponse 204 None))
                   (JInt 5) (JStr "abc")
                   (JDict (post_payload 5 "abc" 0 []))
                   (Comments.__init__ None) in
  let w1 := snd (call Post.like p []) in
  sent (snd (callx Post.delete_like (self w1) (sent w1)))
    = [like_request p; delete_like_request p (JInt 31)] /\
  fst (callx Post.delete_like (self w1) (sent w1)) = OKx tt.
Proof.
  intros like p w1.
  destruct (Post_delete_like_after_like p [] like (JInt 31)
              (post_payload 5 "abc" 0 [])
              (<["comments_count" := JInt 0]> {["likes" := JList []]})
              eq_refl eq_refl eq_refl eq_refl eq_refl eq_refl)
    as (H1 & H2 & _).
  split; [exact H1 |]. apply H2. reflexivity.
Defined.

(** X18: on a post whose data holds an empty list of likes,
    [delete_like()] raises IndexError before any request is sent, and the
    post is left as it was. *)
Theorem Post_delete_like_without_like (p : Post.t) (log : list Request)
    (inter : json) :
  getitem (Post._data p) "interactions" = OK inter ->
  getitem inter "likes" = OK (JList []) ->
  callx Post.delete_like p log = (Raisex IndexError, mkWorld p log).
Proof.
  intros Hinter Hlikes. unfold Post.delete_like, callx. unfold_monadx. simpl.
  rewrite Hinter. simpl. rewrite Hlikes. reflexivity.
Qed.

Lemma Post_delete_like_without_like_witness :
  let p := Post.mk (constant_pod 204 None) (JInt 5) (JStr "abc")
                   (JDict (post_payload 5 "abc" 0 []))
                   (Comments.__init__ None) in
  callx Post.delete_like p [] = (Raisex IndexError, mkWorld p []).
Proof.
  intros p.
  apply (Post_delete_like_without_like p []
           (JDict (<["comments_count" := JInt 0]> {["likes" := JList []]})));
    reflexivity.
Defined.

(** ** Post: comment, poll, reshare, mute, participation, fetch *)

(** X19: [comment(text)] sends one POST to posts/{id}/comments and raises
    a plain Exception, not a PostError, exactly when the status is not
    201; on 201 it returns the Comment made of the decoded body.  The
    post is never changed: the new comment is not put into the post's
    container. *)
Theorem Post_comment_is_detached (p : Post.t) (text : json)
    (log : list Request) :
  let r := pod (Post._connection p) log (comment_post_request p text) in
  let out := callx (Post.comment text) p log in
  snd out = mkWorld p (log ++ [comment_post_request p text]) /\
  (status_code r <> 201 ->
   fst out = Raisex (Exception
     (Format "{0}: Comment could not be posted." [JInt (status_code r)]))) /\
  (status_code r = 201 ->
   fst out = res_up (j ← Response_json r; Comment.__init__ j)) /\
  (forall msg, fst out <> Raisex (Core (PostError msg))).
Proof.
  intros r out. subst out. unfold Post.comment, callx. unfold_monadx. simpl.
  fold (comment_post_request p text). fold r.
  destruct (Z.eqb_spec (status_code r) 201) as [E | E]; simpl.
  - unfold Response_json.
    destruct (body r) as [j |]; simpl.
    + destruct (Comment.__init__ j) as [cm | e] eqn:Hc; simpl.
      * repeat split; try congruence.
      * repeat split; try congruence.
        intros msg [= ->]. unfold Comment.__init__ in Hc.
        cbv [mbind res_bind] in Hc.
        destruct j as [| | | | | dj]; try discriminate. simpl in Hc.
        destruct (dj !! "id"); [| discriminate].
        destruct (dj !! "guid"); discriminate.
    + repeat split; congruence.
  - repeat split; congruence.
Qed.

Lemma Post_comment_is_detached_witness :
  let item := comment_item 8 "c8" "nice" in
  let p := Post.mk (constant_pod 201 (Some item)) (JInt 5) (JStr "abc")
                   (JDict (post_payload 5 "abc" 0 []))
                   (Comments.__init__ None) in
  fst (callx (Post.comment (JStr "nice")) p [])
    = OKx (Comment.mk item (JInt 8) (JStr "c8")) /\
  Comments.__iter__ (Post.comments
                       (self (snd (callx (Post.comment (JStr "nice")) p []))))
    = [].
Proof.
  intros item p.
  destruct (Post_comment_is_detached p (JStr "nice") []) as (H1 & _ & H2 & _).
  split.
  - rewrite (H2 eq_refl). reflexivity.
  - rewrite H1. reflexivity.
Defined.

(** X20: [vote_poll(answer)] reads the poll id from the post's data
    before it sends anything: on a post whose data has no poll the call
    raises KeyError and no request is sent.  With a poll, one POST
    carrying that poll id, the answer and the post id is sent; a status
    other than 201 raises a plain Exception, and 201 returns the decoded
    body.  The post is unchanged. *)
Theorem Post_vote_poll_needs_poll (p : Post.t) (answer : json)
    (log : list Request) (d : gmap string json) :
  Post._data p = JDict d ->
  (d !! "poll" = None ->
   callx (Post.vote_poll answer) p log
     = (Raisex (Core (KeyError (JStr "poll"))), mkWorld p log)) /\
  (forall poll poll_id,
     d !! "poll" = Some poll -> getitem poll "poll_id" = OK poll_id ->
     let r := pod (Post._connection p) log (vote_request p poll_id answer) in
     let out := callx (Post.vote_poll answer) p log in
     snd out = mkWorld p (log ++ [vote_request p poll_id answer]) /\
     (status_code r <> 201 ->
      fst out = Raisex (Exception
        (Format "{0}: Vote on poll failed." [JInt (status_code r)]))) /\
     (status_code r = 201 -> fst out = res_up (Response_json r))).
Proof.
  intros Hd. split.
  - intros Hpoll. unfold Post.vote_poll, callx. unfold_monadx. simpl.
    rewrite Hd. simpl. rewrite Hpoll. reflexivity.
  - intros poll poll_id Hpoll Hid r out. subst out.
    unfold Post.vote_poll, callx. unfold_monadx. simpl.
    rewrite Hd. simpl. rewrite Hpoll. simpl. rewrite Hid. simpl.
    fold (vote_request p poll_id answer). fold r.
    destruct (Z.eqb_spec (status_code r) 201) as [E | E]; simpl.
    + destruct (Response_json r); repeat split; congruence.
    + repeat split; congruence.
Qed.

Lemma Post_vote_poll_needs_poll_witness :
  let p := Post.mk (constant_pod 201 (Some (JDict ∅))) (JInt 5) (JStr "abc")
                   (JDict (post_payload 5 "abc" 0 []))
                   (Comments.__init__ None) in
  callx (Post.vote_poll (JInt 2)) p []
    = (Raisex (Core (KeyError (JStr "poll"))), mkWorld p []).
Proof.
  intros p.
  destruct (Post_vote_poll_needs_poll p (JInt 2) [] (post_payload 5 "abc" 0 [])
              eq_refl) as (H & _).
  apply H. reflexivity.
Defined.

(** X21: [reshare()] names the post by the guid found in its data, not by
    the [guid] the object was made with: it sends one POST to reshares
    whose root_guid is [data['guid']], raises a plain Exception when the
    status is not 201 and returns the decoded body on 201.  When the data
    holds no guid it raises KeyError and sends nothing. *)
Theorem Post_reshare_uses_data_guid (p : Post.t) (log : list Request)
    (d : gmap string json) :
  Post._data p = JDict d ->
  (d !! "guid" = None ->
   callx Post.reshare p log
     = (Raisex (Core (KeyError (JStr "guid"))), mkWorld p log)) /\
  (forall g,
     d !! "guid" = Some g ->
     let r := pod (Post._connection p) log (reshare_request p g) in
     let out := callx Post.reshare p log in
     snd out = mkWorld p (log ++ [reshare_request p g]) /\
     (status_code r <> 201 ->
      fst out = Raisex (Exception
        (Format "{0}: Post could not be reshared" [JInt (status_code r)]))) /\
     (status_code r = 201 -> fst out = res_up (Response_json r))).
Proof.
  intros Hd. split.
  - intros Hg. unfold Post.reshare, callx. unfold_monadx. simpl.
    rewrite Hd. simpl. rewrite Hg. reflexivity.
  - intros g Hg r out. subst out.
    unfold Post.reshare, callx. unfold_monadx. simpl.
    rewrite Hd. simpl. rewrite Hg. simpl.
    fold (reshare_request p g). fold r.
    destruct (Z.eqb_spec (status_code r) 201) as [E | E]; simpl.
    + destruct (Response_json r); repeat split; congruence.
    + repeat split; congruence.
Qed.

Lemma Post_reshare_uses_data_guid_witness :
  let p := Post.mk (constant_pod 201 (Some (JDict ∅))) (JInt 5) (JStr "")
                   (JDict (post_payload 5 "abc" 0 []))
                   (Comments.__init__ None) in
  snd (callx Post.reshare p [])
    = mkWorld p [reshare_request p (JStr "abc")].
Proof.
  intros p.
  destruct (Post_reshare_uses_data_guid p [] (post_payload 5 "abc" 0 [])
              eq_refl) as (_ & H).
  apply (H (JStr "abc") eq_refl).
Defined.

(** X22: [mute()] blocks the author of the post: it sends one POST to
    blocks whose person_id is [data['author']['id']], and raises a plain
    Exception exactly when the status is not 204.  When the data holds no
    author it raises KeyError and sends nothing. *)
Theorem Post_mute_blocks_author (p : Post.t) (log : list Request)
    (d : gmap string json) :
  Post._data p = JDict d ->
  (d !! "author" = None ->
   callx Post.mute p log
     = (Raisex (Core (KeyError (JStr "author"))), mkWorld p log)) /\
  (forall a person,
     d !! "author" = Some a -> getitem a "id" = OK person ->
     let r := pod (Post._connection p) log (mute_request p person) in
     let out := callx Post.mute p log in
     snd out = mkWorld p (log ++ [mute_request p person]) /\
     (fst out = OKx tt <-> status_code r = 204) /\
     (status_code r <> 204 ->
      fst out = Raisex (Exception
        (Format "{0}: Failed to block person" [JInt (status_code r)])))).
Proof.
  intros Hd. split.
  - intros Ha. unfold Post.mute, callx. unfold_monadx. simpl.
    rewrite Hd. simpl. rewrite Ha. reflexivity.
  - intros a person Ha Hid r out. subst out.
    unfold Post.mute, callx. unfold_monadx. simpl.
    rewrite Hd. simpl. rewrite Ha. simpl. rewrite Hid. simpl.
    fold (mute_request p person). fold r.
    destruct (Z.eqb_spec (status_code r) 204) as [E | E]; simpl;
      repeat split; intros; congruence.
Qed.

Lemma Post_mute_blocks_author_witness :
  let d := <["author" := JDict {["id" := JInt 77]}]> (post_payload 5 "abc" 0 []) in
  let p := Post.mk (constant_pod 204 None) (JInt 5) (JStr "abc") (JDict d)
                   (Comments.__init__ None) in
  snd (callx Post.mute p []) = mkWorld p [mute_request p (JInt 77)] /\
  fst (callx Post.mute p []) = OKx tt.
Proof.
  intros d p.
  destruct (Post_mute_blocks_author p [] d eq_refl) as (_ & H).
  destruct (H (JDict {["id" := JInt 77]}) (JInt 77) eq_refl eq_refl)
    as (H1 & H2 & _).
  split; [exact H1 |]. apply H2. reflexivity.
Defined.

(** X23: [subscribe()] and [unsubscribe()] POST to the same path,
    posts/{id}/participation; they differ by the form data (empty, or
    _method=delete) and by the status they accept: [subscribe] returns
    normally exactly on 201 and [unsubscribe] exactly on 200, so no
    status satisfies both.  Each raises a plain Exception otherwise. *)
Theorem Post_participation_statuses (p : Post.t) (log : list Request) :
  let rq1 := participation_request p (JDict ∅) in
  let rq2 := participation_request p (JDict {["_method" := JStr "delete"]}) in
  let out1 := callx Post.subscribe p log in
  let out2 := callx Post.unsubscribe p log in
  rq_url rq1 = rq_url rq2 /\
  snd out1 = mkWorld p (log ++ [rq1]) /\
  snd out2 = mkWorld p (log ++ [rq2]) /\
  (fst out1 = OKx tt <-> status_code (pod (Post._connection p) log rq1) = 201)
  /\
  (fst out2 = OKx tt <-> status_code (pod (Post._connection p) log rq2) = 200)
  /\
  (forall s, status_code (pod (Post._connection p) log rq1) = s ->
             status_code (pod (Post._connection p) log rq2) = s ->
             fst out1 = OKx tt -> fst out2 = OKx tt -> False) /\
  (fst out1 = OKx tt \/ exists msg, fst out1 = Raisex (Exception msg)) /\
  (fst out2 = OKx tt \/ exists msg, fst out2 = Raisex (Exception msg)).
Proof.
  intros rq1 rq2 out1 out2. subst out1 out2.
  unfold Post.subscribe, Post.unsubscribe, callx. unfold_monadx. simpl.
  fold (participation_request p (JDict ∅)).
  fold (participation_request p (JDict {["_method" := JStr "delete"]})).
  fold rq1. fold rq2.
  set (r1 := pod (Post._connection p) log rq1).
  set (r2 := pod (Post._connection p) log rq2).
  destruct (Z.eqb_spec (status_code r1) 201) as [E1 | E1];
    destruct (Z.eqb_spec (status_code r2) 200) as [E2 | E2]; simpl;
    repeat split; intros; try congruence; eauto; try lia.
Qed.

Lemma Post_participation_statuses_witness :
  let p := Post.mk (constant_pod 200 None) (JInt 5) (JStr "abc")
                   (JDict (post_payload 5 "abc" 0 []))
                   (Comments.__init__ None) in
  fst (callx Post.unsubscribe p []) = OKx tt /\
  fst (callx Post.subscribe p []) <> OKx tt.
Proof.
  intros p.
  destruct (Post_participation_statuses p []) as (_ & _ & _ & H1 & H2 & H & _).
  assert (Hun : fst (callx Post.unsubscribe p []) = OKx tt)
    by (apply H2; reflexivity).
  split; [exact Hun |].
  intros Hsub. apply (H 200 eq_refl eq_refl Hsub Hun).
Defined.

(** X24: [fetch(comments=True)] refreshes the data and then asks for the
    comments by the id of the data just received, not of the data the
    post held before: when the data GET is answered 200 with a body
    holding a guid, the id [i] and a nonzero comment count, the requests
    are that GET and then the GET for posts/{i}/comments.json.
    [fetch()] alone sends the data GET only. *)
Theorem Post_fetch_uses_fresh_id (p : Post.t) (log : list Request)
    (key j g i cnt : json) :
  Post.fetch_key p = Some key ->
  status_code (pod (Post._connection p) log (fetchdata_request key)) = 200 ->
  body (pod (Post._connection p) log (fetchdata_request key)) = Some j ->
  getitem j "guid" = OK g ->
  getitem j "id" = OK i ->
  comments_count j = OK cnt ->
  sent (snd (call (Post.fetch true) p log))
    = log ++ [fetchdata_request key]
          ++ (if truthy cnt then [comments_request i] else []) /\
  Post._data (self (snd (call (Post.fetch true) p log))) = j /\
  call (Post.fetch false) p log
    = (OK (Post.mk (Post._connection p) (Post.id p) (Post.guid p) j
                   (Post.comments p)),
       mkWorld (Post.mk (Post._connection p) (Post.id p) (Post.guid p) j
                        (Post.comments p))
               (log ++ [fetchdata_request key])).
Proof.
  intros Hkey Hs Hb Hg Hi Hcnt.
  set (p1 := Post.mk (Post._connection p) (Post.id p) (Post.guid p) j
                     (Post.comments p)).
  assert (Hfd : Post._fetchdata (mkWorld p log)
                = (OK g, mkWorld p1 (log ++ [fetchdata_request key]))).
  { unfold Post._fetchdata, Post.__getitem__, Post.set_data. unfold_monad.
    simpl. rewrite Hkey. simpl. fold (fetchdata_request key).
    rewrite Hs. simpl. unfold Response_bool. rewrite Hs. simpl.
    unfold Response_json. rewrite Hb. simpl. rewrite Hg. reflexivity. }
  pose proof (fetchcomments_sent p1 (log ++ [fetchdata_request key]) i Hi)
    as Hsent.
  pose proof (fetchcomments_keeps_data p1 (log ++ [fetchdata_request key]))
    as (Hdata & _).
  unfold call in Hsent. simpl Post._data in Hsent, Hdata.
  rewrite Hcnt in Hsent.
  unfold Post.fetch. unfold_monad. rewrite Hfd. simpl.
  split; [| split; [| reflexivity]].
  - destruct (Post._fetchcomments _) as [[u | e] w]; simpl in *;
      rewrite Hsent; destruct (truthy cnt);
      rewrite <- ?app_assoc, ?app_nil_r; reflexivity.
  - destruct (Post._fetchcomments _) as [[u | e] w]; simpl in *; exact Hdata.
Qed.

Lemma Post_fetch_uses_fresh_id_witness :
  let p := Post.mk example_pod (JInt 0) (JStr "abc")
                   (JDict (post_payload 99 "abc" 0 []))
                   (Comments.__init__ None) in
  sent (snd (call (Post.fetch true) p []))
    = [fetchdata_request (JStr "abc"); comments_request (JInt 5)].
Proof.
  intros p.
  destruct (Post_fetch_uses_fresh_id p [] (JStr "abc")
              (JDict (post_payload 5 "abc" 2 [])) (JStr "abc") (JInt 5)
              (JInt 2) eq_refl eq_refl eq_refl eq_refl eq_refl eq_refl)
    as (H & _).
  exact H.
Defined.
